(** * numba.core.typing.asnumbatype: the [AsNumbaTypeRegistry]

    A shallow embedding of [numba/core/typing/asnumbatype.py] and the
    properties of its resolution algorithm.

    Python objects are one dynamically typed universe [pyobj]; the tests
    [isinstance], [hasattr] and [is] of the source are boolean functions on
    it.  Methods of the registry run in a small state-and-exception monad
    over the registry object, so that what a method writes to [self] is
    visible in its type.  Exceptions are values of [exn]. *)

From Stdlib Require Import ZArith List String Bool Arith Lia.
Import ListNotations.
Open Scope string_scope.
Open Scope list_scope.

(** ** Python objects *)

(** The objects the registry meets.  Everything here is hashable, as a key
    of [self.lookup] has to be.  The last constructors are the instances of
    [numba.core.types.Type]. *)
#[local] Unset Elimination Schemes.
Inductive pyobj : Type :=
| PyNone
| PyBool (b : bool)
| PyInt (z : Z)
| PyStr (s : string)
| PyClass (name : string) (mro : list string)
    (* a class object; [mro] lists its proper ancestors *)
| PySpecialForm (name : string)
    (* typing.Union, typing_extensions.Annotated, ... *)
| PyGenericAlias (origin : pyobj) (args : list pyobj)
    (* typing._GenericAlias: __origin__ and __args__, no __metadata__ *)
| PyAnnotated (origin : pyobj) (metadata : list pyobj)
    (* Annotated[origin, *metadata]: a _GenericAlias with __metadata__ *)
| NbScalar (name : string)
| NbOptional (type : pyobj)
| NbListType (itemty : pyobj)
| NbDictType (keyty valty : pyobj)
| NbSet (dtype : pyobj)
| NbTuple (tys : list pyobj)
| NbArray (dtype ndim layout : pyobj).
#[local] Set Elimination Schemes.

(** Modelled from the spec: the constructors of [numba.core.types]
    ([Optional], [ListType], [DictType], [Set], [BaseTuple.from_types],
    [Array]) are outside this file; the spec takes them as the tagged
    variants Scalar, Optional(inner), ListType(elem), DictType(key, value),
    SetType(elem), TupleType(ordered elements), Array(dtype, ndim, layout),
    and so do the [Nb] constructors above. *)
Definition types_Optional (t : pyobj) : pyobj := NbOptional t.
Definition types_ListType (t : pyobj) : pyobj := NbListType t.
Definition types_DictType (k v : pyobj) : pyobj := NbDictType k v.
Definition types_Set (t : pyobj) : pyobj := NbSet t.
Definition types_BaseTuple_from_types (tys : list pyobj) : pyobj := NbTuple tys.
Definition types_Array (dtype ndim layout : pyobj) : pyobj :=
  NbArray dtype ndim layout.

(** Induction over [pyobj] with the hypotheses for the objects nested in the
    argument lists. *)
Section pyobj_induction.
Variable P : pyobj -> Prop.
Hypothesis HNone : P PyNone.
Hypothesis HBool : forall b, P (PyBool b).
Hypothesis HInt : forall z, P (PyInt z).
Hypothesis HStr : forall s, P (PyStr s).
Hypothesis HClass : forall n m, P (PyClass n m).
Hypothesis HSpecial : forall n, P (PySpecialForm n).
Hypothesis HGeneric :
  forall o a, P o -> Forall P a -> P (PyGenericAlias o a).
Hypothesis HAnnotated :
  forall o m, P o -> Forall P m -> P (PyAnnotated o m).
Hypothesis HScalar : forall n, P (NbScalar n).
Hypothesis HOptional : forall t, P t -> P (NbOptional t).
Hypothesis HListType : forall t, P t -> P (NbListType t).
Hypothesis HDictType : forall k v, P k -> P v -> P (NbDictType k v).
Hypothesis HSet : forall t, P t -> P (NbSet t).
Hypothesis HTuple : forall ts, Forall P ts -> P (NbTuple ts).
Hypothesis HArray :
  forall d n l, P d -> P n -> P l -> P (NbArray d n l).

Fixpoint pyobj_nested_ind (x : pyobj) : P x :=
  let all :=
    fix all (l : list pyobj) : Forall P l :=
      match l with
      | [] => Forall_nil P
      | y :: r => Forall_cons y (pyobj_nested_ind y) (all r)
      end in
  match x with
  | PyNone => HNone
  | PyBool b => HBool b
  | PyInt z => HInt z
  | PyStr s => HStr s
  | PyClass n m => HClass n m
  | PySpecialForm n => HSpecial n
  | PyGenericAlias o a => HGeneric o a (pyobj_nested_ind o) (all a)
  | PyAnnotated o m => HAnnotated o m (pyobj_nested_ind o) (all m)
  | NbScalar n => HScalar n
  | NbOptional t => HOptional t (pyobj_nested_ind t)
  | NbListType t => HListType t (pyobj_nested_ind t)
  | NbDictType k v =>
      HDictType k v (pyobj_nested_ind k) (pyobj_nested_ind v)
  | NbSet t => HSet t (pyobj_nested_ind t)
  | NbTuple ts => HTuple ts (all ts)
  | NbArray d n l =>
      HArray d n l (pyobj_nested_ind d) (pyobj_nested_ind n)
        (pyobj_nested_ind l)
  end.
End pyobj_induction.

(** *** Comparing objects *)

Section list_eq.
Context {A : Type} (eq : A -> A -> bool).
Fixpoint list_eqb (l r : list A) : bool :=
  match l, r with
  | [], [] => true
  | x :: l', y :: r' => eq x y && list_eqb l' r'
  | _, _ => false
  end.
End list_eq.

(** The special form [typing.Union] *)
Definition is_typing_Union (x : pyobj) : bool :=
  match x with
  | PySpecialForm name => String.eqb name "typing.Union"
  | _ => false
  end.

(** [py_cmp strict x y]: with [strict = true] the two objects are built the
    same way, which for the singletons the source compares with [is]
    (classes, special forms) is object identity; with [strict = false] it is
    Python's [==] as a dictionary sees it, where a bool equals the int of
    the same value ([True == 1], with equal hashes) and two unions are equal
    when they have the same set of members. *)
Fixpoint py_cmp (strict : bool) (x y : pyobj) {struct x} : bool :=
  match x, y with
  | PyNone, PyNone => true
  | PyBool a, PyBool b => Bool.eqb a b
  | PyInt a, PyInt b => Z.eqb a b
  | PyBool a, PyInt b => negb strict && Z.eqb (Z.b2z a) b
  | PyInt a, PyBool b => negb strict && Z.eqb a (Z.b2z b)
  | PyStr a, PyStr b => String.eqb a b
  | PyClass n m, PyClass n' m' => String.eqb n n' && list_eqb String.eqb m m'
  | PySpecialForm n, PySpecialForm n' => String.eqb n n'
  | PyGenericAlias o a, PyGenericAlias o' a' =>
      py_cmp strict o o'
      && (if negb strict && is_typing_Union o then
            forallb (fun x => existsb (fun y => py_cmp strict x y) a') a
            && forallb (fun y => existsb (fun x => py_cmp strict x y) a) a'
          else list_eqb (py_cmp strict) a a')
  | PyAnnotated o m, PyAnnotated o' m' =>
      py_cmp strict o o' && list_eqb (py_cmp strict) m m'
  | NbScalar n, NbScalar n' => String.eqb n n'
  | NbOptional t, NbOptional t' => py_cmp strict t t'
  | NbListType t, NbListType t' => py_cmp strict t t'
  | NbDictType k v, NbDictType k' v' => py_cmp strict k k' && py_cmp strict v v'
  | NbSet t, NbSet t' => py_cmp strict t t'
  | NbTuple ts, NbTuple ts' => list_eqb (py_cmp strict) ts ts'
  | NbArray d n l, NbArray d' n' l' =>
      py_cmp strict d d' && py_cmp strict n n' && py_cmp strict l l'
  | _, _ => false
  end.

(** [x is y] *)
Definition py_is (x y : pyobj) : bool := py_cmp true x y.
(** [x == y] *)
Definition py_eq (x y : pyobj) : bool := py_cmp false x y.

(** [x is None], [x is not None] *)
Definition is_None (x : pyobj) : bool :=
  match x with PyNone => true | _ => false end.
Definition is_not_None (x : pyobj) : bool := negb (is_None x).

(** *** The names the module imports *)

Definition py_object_mro : list string := ["object"].
Definition py_int : pyobj := PyClass "int" py_object_mro.
Definition py_float : pyobj := PyClass "float" py_object_mro.
Definition py_complex : pyobj := PyClass "complex" py_object_mro.
Definition py_str : pyobj := PyClass "str" py_object_mro.
Definition py_bool : pyobj := PyClass "bool" ["int"; "object"].
Definition py_NoneType : pyobj := PyClass "NoneType" py_object_mro.
Definition py_list : pyobj := PyClass "list" py_object_mro.
Definition py_dict : pyobj := PyClass "dict" py_object_mro.
Definition py_set : pyobj := PyClass "set" py_object_mro.
Definition py_tuple : pyobj := PyClass "tuple" py_object_mro.
Definition np_ndarray : pyobj := PyClass "numpy.ndarray" py_object_mro.
Definition np_generic_name : string := "numpy.generic".
Definition pt_Union : pyobj := PySpecialForm "typing.Union".
Definition pt_List : pyobj := PySpecialForm "typing.List".
Definition pt_Dict : pyobj := PySpecialForm "typing.Dict".
Definition pt_Set : pyobj := PySpecialForm "typing.Set".
Definition pt_Tuple : pyobj := PySpecialForm "typing.Tuple".
Definition pt_ext_Annotated : pyobj :=
  PySpecialForm "typing_extensions.Annotated".

(** [isinstance(x, types.Type)] *)
Definition isinstance_Type (x : pyobj) : bool :=
  match x with
  | NbScalar _ | NbOptional _ | NbListType _ | NbDictType _ _
  | NbSet _ | NbTuple _ | NbArray _ _ _ => true
  | _ => false
  end.

(** [isinstance(x, int)]: [bool] is a subclass of [int]. *)
Definition isinstance_int (x : pyobj) : bool :=
  match x with PyInt _ | PyBool _ => true | _ => false end.

(** [isinstance(x, pt._GenericAlias)]; the class of [Annotated[...]]
    derives from it. *)
Definition isinstance_GenericAlias (x : pyobj) : bool :=
  match x with PyGenericAlias _ _ | PyAnnotated _ _ => true | _ => false end.

(** [hasattr(x, "__metadata__")] *)
Definition hasattr_metadata (x : pyobj) : bool :=
  match x with PyAnnotated _ _ => true | _ => false end.

(** [getattr(x, "__origin__", None)]: the [__origin__] of [Annotated[T, ...]]
    is [T]. *)
Definition getattr_origin (x : pyobj) : pyobj :=
  match x with
  | PyGenericAlias o _ => o
  | PyAnnotated o _ => o
  | _ => PyNone
  end.

(** [inspect.isclass(x)] *)
Definition inspect_isclass (x : pyobj) : bool :=
  match x with PyClass _ _ => true | _ => false end.

(** [issubclass(x, C)] for the class named [C] *)
Definition issubclass (x : pyobj) (C : string) : bool :=
  match x with
  | PyClass n m => String.eqb n C || existsb (String.eqb C) m
  | _ => false
  end.

(** ** Exceptions *)

(** The messages of [errors.TypingError] the module raises; the objects an
    f-string interpolates are kept as they are. *)
Inductive typing_msg : Type :=
| Invalid_Annotated_syntax
| Cannot_type_Union_of_more_than_two_types
| Cannot_type_Union_that_is_not_an_Optional (arg_2_py : pyobj)
| as_numba_type_should_return_a_numba_type (result : pyobj)
| Cannot_infer_numba_type_of_python_type (py_type : pyobj)
| Message (text : string).

Inductive exn : Type :=
| TypingError (msg : typing_msg)
| ValueError (msg : string)
| AssertionError
| OtherError (kind : string).

Definition is_TypingError (e : exn) : bool :=
  match e with TypingError _ => true | _ => false end.

(** What unpacking a sequence of [got] items into [expected] names raises
    when the two numbers differ. *)
Definition unpack_error (expected got : nat) : exn :=
  if (got <? expected)%nat
  then ValueError "not enough values to unpack"
  else ValueError "too many values to unpack".

Inductive res (A : Type) : Type :=
| Ok (a : A)
| Raise (e : exn).
Arguments Ok {A} a.
Arguments Raise {A} e.

(** ** The registry object and its monad *)

(** What [self.functions] holds: the three bound methods and the functions
    [register] appends.  A registered function takes a python type and
    returns an object ([None] for no answer) or raises.

    A registered function is taken here as a function of the python type
    alone.  In Python it is any callable: it can reach the registry through
    the module-level [as_numba_type] and call [register] or [try_infer] on
    it while [try_infer] is calling it.  A registry that holds functions
    acting on registries has no strictly positive type, and functions that
    go back into [try_infer] need not end; such functions are outside this
    model, and every statement below about registered functions is about
    those that answer from their argument. *)
Inductive strategy : Type :=
| Bound_builtin_infer
| Bound_numba_type_infer
| Bound_numpy_type_infer
| Registered (func : pyobj -> res pyobj).

(** A [dict] keeps its items in insertion order; keys are compared with
    [==].  Its keys are hashable objects, as all of [pyobj] is; what the
    methods do when handed an unhashable object is [try_infer_object]
    below. *)
Definition dict : Type := list (pyobj * pyobj).

Fixpoint dict_lookup (d : dict) (key : pyobj) : option pyobj :=
  match d with
  | [] => None
  | (k, v) :: d' => if py_eq k key then Some v else dict_lookup d' key
  end.

(** [d.get(key, default)] *)
Definition dict_get (d : dict) (key default : pyobj) : pyobj :=
  match dict_lookup d key with Some v => v | None => default end.

(** [d[key] = value] *)
Fixpoint dict_setitem (d : dict) (key value : pyobj) : dict :=
  match d with
  | [] => [(key, value)]
  | (k, v) :: d' =>
      if py_eq k key then (k, value) :: d'
      else (k, v) :: dict_setitem d' key value
  end.

Record AsNumbaTypeRegistry : Type := mkRegistry {
  lookup : dict;
  functions : list strategy;
}.

(** A method body: it reads and writes [self] and returns or raises.  What
    was written before a [raise] stays written. *)
Definition M (A : Type) : Type :=
  AsNumbaTypeRegistry -> res A * AsNumbaTypeRegistry.

Definition ret {A} (a : A) : M A := fun self => (Ok a, self).
Definition raise {A} (e : exn) : M A := fun self => (Raise e, self).
Definition bind {A B} (m : M A) (k : A -> M B) : M B :=
  fun self =>
    match m self with
    | (Ok a, self') => k a self'
    | (Raise e, self') => (Raise e, self')
    end.
Definition get_self : M AsNumbaTypeRegistry := fun self => (Ok self, self).
Definition put_self (s : AsNumbaTypeRegistry) : M unit := fun _ => (Ok tt, s).
Definition lift {A} (r : res A) : M A := fun self => (r, self).

Notation "x <- m ;; k" := (bind m (fun x => k))
  (at level 61, m at next level, right associativity).

Section mapM.
Context {A B : Type} (f : A -> M B).
(** [tuple(map(f, l))]: in order, stopping at the first exception. *)
Fixpoint mapM (l : list A) : M (list B) :=
  match l with
  | [] => ret []
  | x :: l' => y <- f x ;; ys <- mapM l' ;; ret (y :: ys)
  end.
End mapM.

(** ** The module *)

Section asnumbatype.

(** [utils.PYVERSION], a pair (major, minor), and
    [numpy_support.from_dtype] are defined outside this file.  The object
    model above is that of [typing] on interpreters from 3.7 on, the only
    ones this module is loaded on; results that depend on a version
    switch assume it. *)
Variable PYVERSION : nat * nat.
Variable numpy_support_from_dtype : pyobj -> res pyobj.

(** [a >= b] on version pairs, as Python compares tuples *)
Definition version_ge (a b : nat * nat) : bool :=
  ((fst b <? fst a) || ((fst a =? fst b) && (snd b <=? snd a)))%nat.

Definition _py_version_switch {A : Type}
    (py_version : nat * nat) (new_result old_result : A) : A :=
  if version_ge PYVERSION py_version then new_result else old_result.

(** *** [__init__] *)

(** The example values of [__init__]; only their class and their numba
    type are used. *)
Inductive example : Type :=
| ex_0 | ex_0_0 | ex_complex_0 | ex_numba | ex_True | ex_None.

(** [type(example)] *)
Definition type_ (e : example) : pyobj :=
  match e with
  | ex_0 => py_int
  | ex_0_0 => py_float
  | ex_complex_0 => py_complex
  | ex_numba => py_str
  | ex_True => py_bool
  | ex_None => py_NoneType
  end.

(** Modelled from the spec: [numba.core.typing.typeof.typeof] is outside
    this file; the table is seeded with the canonical scalar types of the
    primitive host types integer, float, complex, string, boolean and
    none. *)
Definition typeof (e : example) : pyobj :=
  match e with
  | ex_0 => NbScalar "int64"
  | ex_0_0 => NbScalar "float64"
  | ex_complex_0 => NbScalar "complex128"
  | ex_numba => NbScalar "unicode_type"
  | ex_True => NbScalar "bool"
  | ex_None => NbScalar "none"
  end.

Definition __init__ : AsNumbaTypeRegistry :=
  {| lookup :=
       fold_left (fun d e => dict_setitem d (type_ e) (typeof e))
         [ex_0; ex_0_0; ex_complex_0; ex_numba; ex_True; ex_None] [];
     functions :=
       [Bound_builtin_infer; Bound_numba_type_infer; Bound_numpy_type_infer] |}.

(** *** The three built-in functions *)

Definition _numba_type_infer (py_type : pyobj) : M pyobj :=
  if isinstance_Type py_type then ret py_type else ret PyNone.

Definition _numpy_type_infer (py_type : pyobj) : M pyobj :=
  if inspect_isclass py_type && issubclass py_type np_generic_name
  then lift (numpy_support_from_dtype py_type)
  else ret PyNone.

(** [_builtin_infer] calls [self.infer] on parts of [py_type]; the method
    is its first argument here, and [try_infer] below closes the loop. *)
Definition _builtin_infer (self_infer : pyobj -> M pyobj) (py_type : pyobj)
  : M pyobj :=
  let generic_type_check :=
    _py_version_switch (3, 7)
      (fun x => isinstance_GenericAlias x)
      (fun _ => true) in
  if negb (generic_type_check py_type) then ret PyNone else
  let annotated_type_check :=
    _py_version_switch (3, 7)
      (fun x => hasattr_metadata x)
      (fun x => py_is (getattr_origin x) pt_ext_Annotated) in
  let list_origin := _py_version_switch (3, 7) py_list pt_List in
  let dict_origin := _py_version_switch (3, 7) py_dict pt_Dict in
  let set_origin := _py_version_switch (3, 7) py_set pt_Set in
  let tuple_origin := _py_version_switch (3, 7) py_tuple pt_Tuple in
  if annotated_type_check py_type then
    match py_type with
    | PyAnnotated inner_py_type annotations =>
        (* annotations = py_type.__metadata__ *)
        match annotations with
        | [annotations_0] =>
            (* Annotated[py_type, nb_type] *)
            self_infer annotations_0
        | annotations_0 :: annotations_1 :: _ =>
            if ((List.length annotations =? 2) || (List.length annotations =? 3))%nat
               && py_is inner_py_type np_ndarray
               && isinstance_int annotations_1
            then
              (* Annotated[np.ndarray, dtype, ndim]
                 Annotated[np.ndarray, dtype, ndim, layout] *)
              let layout :=
                if (List.length annotations =? 3)%nat
                then nth 2 annotations PyNone
                else PyStr "A" in
              dtype <- self_infer annotations_0 ;;
              ret (types_Array dtype annotations_1 layout)
            else raise (TypingError Invalid_Annotated_syntax)
        | [] => raise (TypingError Invalid_Annotated_syntax)
        end
    | _ =>
        (* no __metadata__ to read: not reached from 3.7 on *)
        raise (OtherError "AttributeError")
    end
  else
  let py_type_origin := getattr_origin py_type in
  match py_type with
  | PyGenericAlias _ py_type_args =>
      if py_is py_type_origin pt_Union then
        match py_type_args with
        | [arg_1_py; arg_2_py] =>
            if py_is arg_2_py py_NoneType then
              t <- self_infer arg_1_py ;; ret (types_Optional t)
            else if py_is arg_1_py py_NoneType then
              t <- self_infer arg_2_py ;; ret (types_Optional t)
            else
              raise (TypingError
                       (Cannot_type_Union_that_is_not_an_Optional arg_2_py))
        | _ =>
            raise (TypingError Cannot_type_Union_of_more_than_two_types)
        end
      else if py_is py_type_origin list_origin then
        match py_type_args with
        | [element_py] =>
            t <- self_infer element_py ;; ret (types_ListType t)
        | _ => raise (unpack_error 1 (List.length py_type_args))
        end
      else if py_is py_type_origin dict_origin then
        match py_type_args with
        | [key_py; value_py] =>
            k <- self_infer key_py ;;
            v <- self_infer value_py ;;
            ret (types_DictType k v)
        | _ => raise (unpack_error 2 (List.length py_type_args))
        end
      else if py_is py_type_origin set_origin then
        match py_type_args with
        | [element_py] =>
            t <- self_infer element_py ;; ret (types_Set t)
        | _ => raise (unpack_error 1 (List.length py_type_args))
        end
      else if py_is py_type_origin tuple_origin then
        tys <- mapM self_infer py_type_args ;;
        ret (types_BaseTuple_from_types tys)
      else ret PyNone
  | _ =>
      (* an Annotated alias that the check above let through: not
         reached from 3.7 on *)
      ret PyNone
  end.

(** *** [register] *)

(** The first argument of [register]: a python type, or a function. *)
Inductive func_or_py_type : Type :=
| Py_type (py_type : pyobj)
| Func (func : pyobj -> res pyobj).

Definition register (arg : func_or_py_type) (numba_type : pyobj) : M unit :=
  if is_not_None numba_type then
    (* register used with a specific (py_type, numba_type) pair. *)
    if negb (isinstance_Type numba_type) then raise AssertionError else
    match arg with
    | Py_type py_type =>
        self <- get_self ;;
        put_self {| lookup := dict_setitem (lookup self) py_type numba_type;
                    functions := functions self |}
    | Func _ =>
        (* the key is a function object, which no [pyobj] equals: the
           part of the table modelled here keeps its entries *)
        ret tt
    end
  else
    (* register used as a decorator. *)
    match arg with
    | Func func =>
        self <- get_self ;;
        put_self {| lookup := lookup self;
                    functions := functions self ++ [Registered func] |}
    | Py_type _ => raise AssertionError
    end.

(** *** [try_infer] and [infer] *)

Section for_functions.
Variable call : strategy -> M pyobj.
(** The loop of [try_infer]:
    [for func in self.functions: if result is not None: break;
     result = func(py_type)]. *)
Fixpoint for_functions (funcs : list strategy) (result : pyobj)
  : M pyobj :=
  match funcs with
  | [] => ret result
  | func :: funcs' =>
      if is_not_None result then ret result
      else result' <- call func ;; for_functions funcs' result'
  end.
End for_functions.

(** [func(py_type)] for an element of [self.functions] *)
Definition call_function (self_infer : pyobj -> M pyobj)
    (py_type : pyobj) (func : strategy) : M pyobj :=
  match func with
  | Bound_builtin_infer => _builtin_infer self_infer py_type
  | Bound_numba_type_infer => _numba_type_infer py_type
  | Bound_numpy_type_infer => _numpy_type_infer py_type
  | Registered f => lift (f py_type)
  end.

(** The body of [infer], over the [try_infer] it calls. *)
Definition infer_body (self_try_infer : pyobj -> M pyobj)
    (py_type : pyobj) : M pyobj :=
  result <- self_try_infer py_type ;;
  if is_None result then
    raise (TypingError (Cannot_infer_numba_type_of_python_type py_type))
  else ret result.

(** The body of [try_infer], over the [infer] the built-in function
    calls on the parts of [py_type]. *)
Definition try_infer_body (self_infer : pyobj -> M pyobj)
    (py_type : pyobj) : M pyobj :=
  self <- get_self ;;
  let result := dict_get (lookup self) py_type PyNone in
  result <- for_functions (call_function self_infer py_type)
              (functions self) result ;;
  if is_not_None result && negb (isinstance_Type result) then
    raise (TypingError (as_numba_type_should_return_a_numba_type result))
  else ret result.

Fixpoint try_infer (py_type : pyobj) {struct py_type} : M pyobj :=
  try_infer_body (fun py_type' => infer_body (fun x => try_infer x) py_type')
    py_type.

Definition infer (py_type : pyobj) : M pyobj :=
  infer_body try_infer py_type.

Definition __call__ (py_type : pyobj) : M pyobj := infer py_type.

(** *** Arguments that cannot be hashed *)

(** An argument of [try_infer] or [infer] is any Python object.  [pyobj]
    holds the hashable ones.  An alias or an [Annotated] is hashed through
    its origin and its arguments or metadata, so an object with an
    unhashable part anywhere inside (a list among the metadata, as in
    [Annotated[int, []]]) is unhashable as a whole; of such an object only
    the name of the offending type is kept. *)
Inductive object : Type :=
| Hashable (x : pyobj)
| Unhashable (type_name : string).


(** [hash(py_type)], the first thing [self.lookup.get(py_type, None)] does:
    it raises [TypeError] on an unhashable object, before the table or the
    object is looked at. *)
Definition hash_key (py_type : object) : res pyobj :=
  match py_type with
  | Hashable x => Ok x
  | Unhashable _ => Raise (OtherError "TypeError")
  end.

(** [try_infer] and [infer] on any object: the first statement of
    [try_infer] is the table lookup, so an unhashable argument never gets
    past it, and [infer] starts by calling [try_infer]. *)
Definition try_infer_object (py_type : object) : M pyobj :=
  x <- lift (hash_key py_type) ;; try_infer x.

Definition infer_object (py_type : object) : M pyobj :=
  x <- lift (hash_key py_type) ;; infer x.

(** *** Examples *)

(** An interpreter version, a scalar mapping and a class for the
    examples. *)
Definition PYVERSION_example : nat * nat := (3, 11)%nat.

Definition from_dtype_example (dtype : pyobj) : res pyobj :=
  match dtype with
  | PyClass name _ => Ok (NbScalar name)
  | _ => Raise (TypingError (Message "unsupported dtype"))
  end.

Definition class_Foo : pyobj := PyClass "Foo" py_object_mro.

(** *** The vocabulary of the properties *)

(** A computation that leaves [self] as it found it. *)
Definition read_only {A} (m : M A) : Prop :=
  forall self, snd (m self) = self.

(** The parts of a python type [_builtin_infer] may pass to
    [self.infer]. *)
Definition parts (py_type : pyobj) : list pyobj :=
  match py_type with
  | PyGenericAlias _ args => args
  | PyAnnotated _ metadata => metadata
  | _ => []
  end.

(** The last statement of [try_infer], on the result of the loop. *)
Definition checked (result : pyobj) : M pyobj :=
  if is_not_None result && negb (isinstance_Type result) then
    raise (TypingError (as_numba_type_should_return_a_numba_type result))
  else ret result.

(** Every value of the table is a numba type: [register] asserts it. *)
Definition lookup_holds_types (self : AsNumbaTypeRegistry) : Prop :=
  Forall (fun item => isinstance_Type (snd item) = true) (lookup self).

(** [_builtin_infer] is the first function of the list. *)
Definition builtin_first (self : AsNumbaTypeRegistry) : Prop :=
  exists funcs, functions self = Bound_builtin_infer :: funcs.

(** The registries a program can hold: the one [__init__] makes, and those
    [register] turns it into. *)
Inductive reachable : AsNumbaTypeRegistry -> Prop :=
| reachable_init : reachable __init__
| reachable_register self arg numba_type r self' :
    reachable self ->
    register arg numba_type self = (r, self') ->
    reachable self'.

(** [annotations[2] if len(annotations) == 3 else "A"], for the
    annotations after the first two *)
Definition layout_of (rest : list pyobj) : pyobj :=
  match rest with [layout] => layout | _ => PyStr "A" end.

(** [resolves_as py_type m]: the built-in function run on [py_type] is the
    computation [m]; and so are [try_infer] and [infer] on every registry
    that has [_builtin_infer] first in its list of functions and no entry
    for [py_type] itself in its table. *)
Definition resolves_as (py_type : pyobj) (m : M pyobj) : Prop :=
  (forall self, _builtin_infer infer py_type self = m self)
  /\ (forall self,
        builtin_first self ->
        dict_lookup (lookup self) py_type = None ->
        try_infer py_type self = m self /\ infer py_type self = m self).






(** *** More vocabulary: registries as [register] leaves them *)

(** The three built-in functions head the list, in the order of
    [__init__]. *)
Definition builtins_first (self : AsNumbaTypeRegistry) : Prop :=
  exists funcs,
    functions self =
    Bound_builtin_infer :: Bound_numba_type_infer :: Bound_numpy_type_infer
      :: funcs.

(** The classes [__init__] seeds the table with. *)
Definition seeded_classes : list pyobj :=
  [py_int; py_float; py_complex; py_str; py_bool; py_NoneType].

(** [self] after [register(func)], the decorator form. *)
Definition with_function (self : AsNumbaTypeRegistry)
    (func : pyobj -> res pyobj) : AsNumbaTypeRegistry :=
  snd (register (Func func) PyNone self).

(** [self] after [register(py_type, numba_type)], the pair form. *)
Definition with_entry (self : AsNumbaTypeRegistry)
    (py_type numba_type : pyobj) : AsNumbaTypeRegistry :=
  snd (register (Py_type py_type) numba_type self).

(** Two unions have the same set of members: the test [py_cmp] makes for
    [==] on unions. *)
Definition same_members (eq : pyobj -> pyobj -> bool) (a a' : list pyobj)
  : bool :=
  forallb (fun x => existsb (fun y => eq x y) a') a
  && forallb (fun y => existsb (fun x => eq x y) a) a'.


(** The [Annotated] shapes [_builtin_infer] accepts: one metadata element, or
    two or three around [np.ndarray] with an [int] second. *)
Definition Annotated_shape_ok (inner_py_type : pyobj)
    (annotations : list pyobj) : bool :=
  (List.length annotations =? 1)%nat
  || ((List.length annotations =? 2) || (List.length annotations =? 3))%nat
     && py_is inner_py_type np_ndarray
     && isinstance_int (nth 1 annotations PyNone).



(** A numba type that is one all the way down: its parts are numba types,
    and the [ndim] of an Array is an [int]. *)
Fixpoint well_formed (t : pyobj) : bool :=
  match t with
  | NbScalar _ => true
  | NbOptional type => well_formed type
  | NbListType itemty => well_formed itemty
  | NbDictType keyty valty => well_formed keyty && well_formed valty
  | NbSet dtype => well_formed dtype
  | NbTuple tys => forallb well_formed tys
  | NbArray dtype ndim _ => well_formed dtype && isinstance_int ndim
  | _ => false
  end.

(** The numba types written inside a python type, as arguments of its
    aliases or as metadata, are well formed. *)
Fixpoint numba_types_inside_ok (py_type : pyobj) : bool :=
  match py_type with
  | PyGenericAlias _ args => forallb numba_types_inside_ok args
  | PyAnnotated _ metadata => forallb numba_types_inside_ok metadata
  | _ => if isinstance_Type py_type then well_formed py_type else true
  end.

(** A function whose answers, when they are numba types, are well
    formed. *)
Definition answers_well_formed (f : pyobj -> res pyobj) : Prop :=
  forall x v, f x = Ok v -> isinstance_Type v = true -> well_formed v = true.

(** A registry whose table values and whose registered functions' answers
    are well formed. *)
Definition registry_well_formed (self : AsNumbaTypeRegistry) : Prop :=
  Forall (fun item => well_formed (snd item) = true) (lookup self)
  /\ forall f, In (Registered f) (functions self) -> answers_well_formed f.

(** Run on [self], [m] leaves it as it is and returns only values with
    [Q]. *)
Definition returns_at {A} (self : AsNumbaTypeRegistry) (Q : A -> Prop)
    (m : M A) : Prop :=
  snd (m self) = self /\ forall a, fst (m self) = Ok a -> Q a.

(** [None], or a well-formed numba type: what [_builtin_infer] returns. *)
Definition None_or_well_formed (r : pyobj) : Prop :=
  r = PyNone \/ well_formed r = true.

(** If a numba type, then a well-formed one. *)
Definition well_formed_if_Type (r : pyobj) : Prop :=
  isinstance_Type r = true -> well_formed r = true.

(** ** Properties *)

(** *** The monad *)

Lemma bind_Ok {A B} (m : M A) (k : A -> M B) self a self' :
  m self = (Ok a, self') -> bind m k self = k a self'.
Proof. unfold bind; intros ->; reflexivity. Qed.

Lemma bind_Raise {A B} (m : M A) (k : A -> M B) self e self' :
  m self = (Raise e, self') -> bind m k self = (Raise e, self').
Proof. unfold bind; intros ->; reflexivity. Qed.

Lemma bind_inv {A B} (m : M A) (k : A -> M B) self r self'' :
  bind m k self = (r, self'') ->
  (exists a self', m self = (Ok a, self') /\ k a self' = (r, self''))
  \/ (exists e, m self = (Raise e, self'') /\ r = Raise e).
Proof.
  unfold bind; destruct (m self) as [[a | e] self'] eqn:E; intros H.
  - left; eauto.
  - right; inversion H; subst; eauto.
Qed.

Lemma read_only_ret {A} (a : A) : read_only (ret a).
Proof. intros self; reflexivity. Qed.

Lemma read_only_raise {A} e : read_only (@raise A e).
Proof. intros self; reflexivity. Qed.

Lemma read_only_lift {A} (r : res A) : read_only (lift r).
Proof. intros self; reflexivity. Qed.

Lemma read_only_get_self : read_only get_self.
Proof. intros self; reflexivity. Qed.

Lemma read_only_bind {A B} (m : M A) (k : A -> M B) :
  read_only m -> (forall a, read_only (k a)) -> read_only (bind m k).
Proof.
  intros Hm Hk self; unfold bind.
  specialize (Hm self); destruct (m self) as [[a | e] self']; simpl in Hm;
    subst; [apply Hk | reflexivity].
Qed.

Lemma read_only_mapM {A B} (f : A -> M B) (l : list A) :
  Forall (fun x => read_only (f x)) l -> read_only (mapM f l).
Proof.
  induction 1 as [| x l Hx _ IH]; simpl.
  - apply read_only_ret.
  - apply read_only_bind; [exact Hx | intros y].
    apply read_only_bind; [exact IH | intros ys; apply read_only_ret].
Qed.

Lemma read_only_for_functions call funcs :
  Forall (fun func => read_only (call func)) funcs ->
  forall result, read_only (for_functions call funcs result).
Proof.
  induction 1 as [| func funcs Hf _ IH]; intros result; simpl.
  - apply read_only_ret.
  - destruct (is_not_None result); [apply read_only_ret |].
    apply read_only_bind; [exact Hf | exact IH].
Qed.

Lemma read_only_run {A} (m : M A) self :
  read_only m -> m self = (fst (m self), self).
Proof.
  intros H; specialize (H self); destruct (m self); simpl in *; congruence.
Qed.

(** *** Unfolding the methods *)

Lemma try_infer_eq py_type :
  try_infer py_type = try_infer_body infer py_type.
Proof. destruct py_type; reflexivity. Qed.

Lemma infer_eq py_type :
  infer py_type = infer_body try_infer py_type.
Proof. reflexivity. Qed.

Ltac split_Forall :=
  repeat match goal with
         | H : Forall _ (_ :: _) |- _ => inversion H; subst; clear H
         end.

Ltac read_only_step :=
  first
    [ apply read_only_ret
    | apply read_only_raise
    | apply read_only_lift
    | apply read_only_get_self
    | assumption
    | apply read_only_mapM; assumption
    | apply read_only_bind; [| intros ?] ].

Lemma read_only_builtin_infer self_infer py_type :
  Forall (fun x => read_only (self_infer x)) (parts py_type) ->
  read_only (_builtin_infer self_infer py_type).
Proof.
  intros H; unfold _builtin_infer.
  repeat match goal with
         | |- read_only (if ?c then _ else _) => destruct c
         | |- read_only (match ?x with _ => _ end) =>
             destruct x; simpl parts in *; split_Forall
         | |- _ => read_only_step
         end.
Qed.

Lemma read_only_call_function self_infer py_type func :
  Forall (fun x => read_only (self_infer x)) (parts py_type) ->
  read_only (call_function self_infer py_type func).
Proof.
  intros H; destruct func; simpl.
  - apply read_only_builtin_infer; exact H.
  - unfold _numba_type_infer; destruct (isinstance_Type py_type);
      apply read_only_ret.
  - unfold _numpy_type_infer.
    destruct (inspect_isclass py_type && issubclass py_type np_generic_name);
      [apply read_only_lift | apply read_only_ret].
  - apply read_only_lift.
Qed.

Lemma read_only_infer_body self_try_infer py_type :
  read_only (self_try_infer py_type) ->
  read_only (infer_body self_try_infer py_type).
Proof.
  intros H; unfold infer_body.
  apply read_only_bind; [exact H | intros result].
  destruct (is_None result); [apply read_only_raise | apply read_only_ret].
Qed.

Lemma read_only_try_infer_body self_infer py_type :
  Forall (fun x => read_only (self_infer x)) (parts py_type) ->
  read_only (try_infer_body self_infer py_type).
Proof.
  intros H; unfold try_infer_body.
  apply read_only_bind; [apply read_only_get_self | intros self].
  apply read_only_bind.
  - apply read_only_for_functions, Forall_forall; intros func _.
    apply read_only_call_function; exact H.
  - intros result.
    destruct (is_not_None result && negb (isinstance_Type result));
      [apply read_only_raise | apply read_only_ret].
Qed.

Lemma read_only_try_infer py_type : read_only (try_infer py_type).
Proof.
  induction py_type using pyobj_nested_ind;
    rewrite try_infer_eq; apply read_only_try_infer_body; simpl;
    try apply Forall_nil;
    match goal with
    | H : Forall _ ?l |- Forall _ ?l =>
        eapply Forall_impl; [| exact H]; intros x Hx;
        rewrite infer_eq; apply read_only_infer_body; exact Hx
    end.
Qed.

Lemma read_only_infer py_type : read_only (infer py_type).
Proof. apply read_only_infer_body, read_only_try_infer. Qed.

Lemma try_infer_run py_type self :
  try_infer py_type self = (fst (try_infer py_type self), self).
Proof. apply read_only_run, read_only_try_infer. Qed.

Lemma infer_run py_type self :
  infer py_type self = (fst (infer py_type self), self).
Proof. apply read_only_run, read_only_infer. Qed.

(** *** The loop and the final test of [try_infer] *)

Lemma try_infer_body_checked self_infer py_type self :
  try_infer_body self_infer py_type self =
  (result <- for_functions (call_function self_infer py_type)
               (functions self) (dict_get (lookup self) py_type PyNone) ;;
   checked result) self.
Proof. reflexivity. Qed.

Lemma isinstance_Type_not_None t :
  isinstance_Type t = true -> is_not_None t = true.
Proof. destruct t; simpl; intros H; try discriminate; reflexivity. Qed.

Lemma checked_Type t : isinstance_Type t = true -> checked t = ret t.
Proof. intros H; unfold checked; rewrite H, andb_false_r; reflexivity. Qed.

Lemma checked_None : checked PyNone = ret PyNone.
Proof. reflexivity. Qed.

Lemma checked_Ok result self r self' :
  checked result self = (Ok r, self') ->
  r = result /\ self' = self
  /\ (is_not_None r = true -> isinstance_Type r = true).
Proof.
  unfold checked.
  destruct (is_not_None result) eqn:E1, (isinstance_Type result) eqn:E2;
    simpl; unfold ret, raise; intros H; inversion H; subst;
    repeat split; congruence.
Qed.

Lemma for_functions_present call funcs result :
  is_not_None result = true -> for_functions call funcs result = ret result.
Proof. intros H; destruct funcs; simpl; [| rewrite H]; reflexivity. Qed.

Lemma for_functions_cons_None call func funcs :
  for_functions call (func :: funcs) PyNone =
  (result <- call func ;; for_functions call funcs result).
Proof. reflexivity. Qed.

(** Functions that answer [None] are passed over. *)
Lemma for_functions_skip call pre funcs self :
  Forall (fun func => call func self = (Ok PyNone, self)) pre ->
  for_functions call (pre ++ funcs) PyNone self =
  for_functions call funcs PyNone self.
Proof.
  induction 1 as [| func pre Hf _ IH]; simpl; [reflexivity |].
  rewrite (bind_Ok _ _ _ _ _ Hf); exact IH.
Qed.

Lemma try_infer_Ok py_type self r self' :
  try_infer py_type self = (Ok r, self') ->
  is_not_None r = true -> isinstance_Type r = true.
Proof.
  rewrite try_infer_eq, try_infer_body_checked; intros H.
  apply bind_inv in H as [(a & s & _ & H) | (e & _ & H)]; [| discriminate].
  apply checked_Ok in H; tauto.
Qed.

Lemma infer_Ok py_type self t self' :
  infer py_type self = (Ok t, self') -> isinstance_Type t = true.
Proof.
  rewrite infer_eq; unfold infer_body; intros H.
  apply bind_inv in H as [(a & s & Ha & H) | (e & _ & H)]; [| discriminate].
  destruct (is_None a) eqn:E; [discriminate |].
  inversion H; subst.
  eapply try_infer_Ok; [exact Ha |].
  unfold is_not_None; rewrite E; reflexivity.
Qed.

Lemma call_function_run py_type func self :
  call_function infer py_type func self =
  (fst (call_function infer py_type func self), self).
Proof.
  apply read_only_run, read_only_call_function, Forall_forall.
  intros x _; apply read_only_infer.
Qed.

Lemma call_function_answers_None py_type funcs self :
  Forall (fun func => fst (call_function infer py_type func self) = Ok PyNone)
    funcs ->
  Forall (fun func => call_function infer py_type func self = (Ok PyNone, self))
    funcs.
Proof.
  apply Forall_impl; intros func H.
  rewrite call_function_run, H; reflexivity.
Qed.

Lemma dict_get_lookup d key default :
  dict_get d key default =
  match dict_lookup d key with Some v => v | None => default end.
Proof. reflexivity. Qed.

(** *** Registries and what [register] keeps true of them *)

Lemma dict_setitem_holds_types d key value :
  Forall (fun item => isinstance_Type (snd item) = true) d ->
  isinstance_Type value = true ->
  Forall (fun item => isinstance_Type (snd item) = true)
    (dict_setitem d key value).
Proof.
  intros Hd Hv; induction Hd as [| [k v] d Hk Hd IH]; simpl.
  - constructor; [exact Hv | constructor].
  - destruct (py_eq k key); constructor; simpl; auto.
Qed.

Lemma dict_lookup_holds_types d key value :
  Forall (fun item => isinstance_Type (snd item) = true) d ->
  dict_lookup d key = Some value -> isinstance_Type value = true.
Proof.
  induction 1 as [| [k v] d Hk _ IH]; simpl; [discriminate |].
  destruct (py_eq k key); [intros H; inversion H; subst; exact Hk | exact IH].
Qed.

Lemma register_inv arg numba_type self r self' :
  register arg numba_type self = (r, self') ->
  self' = self
  \/ (exists py_type,
        isinstance_Type numba_type = true
        /\ self' = {| lookup := dict_setitem (lookup self) py_type numba_type;
                      functions := functions self |})
  \/ (exists func,
        self' = {| lookup := lookup self;
                   functions := functions self ++ [Registered func] |}).
Proof.
  unfold register.
  destruct (is_not_None numba_type).
  - destruct (isinstance_Type numba_type) eqn:E; simpl.
    + destruct arg; cbv [bind get_self put_self ret]; intros H;
        inversion H; subst; [right; left; eauto | left; reflexivity].
    + cbv [raise]; intros H; inversion H; left; reflexivity.
  - destruct arg; cbv [bind get_self put_self raise]; intros H;
      inversion H; subst; [left; reflexivity | right; right; eauto].
Qed.

Lemma reachable_lookup_holds_types self :
  reachable self -> lookup_holds_types self.
Proof.
  induction 1 as [| self arg numba_type r self' _ IH Hreg].
  - unfold lookup_holds_types; simpl; repeat constructor.
  - apply register_inv in Hreg
      as [-> | [(py_type & Ht & ->) | (func & ->)]]; try exact IH.
    apply dict_setitem_holds_types; assumption.
Qed.

Lemma reachable_builtin_first self : reachable self -> builtin_first self.
Proof.
  induction 1 as [| self arg numba_type r self' _ IH Hreg].
  - eexists; reflexivity.
  - apply register_inv in Hreg
      as [-> | [(py_type & Ht & ->) | (func & ->)]]; try exact IH.
    destruct IH as [funcs E]; unfold builtin_first; simpl; rewrite E.
    eexists; reflexivity.
Qed.

(** *** Table entries, unresolved types, results that are no types *)

Lemma try_infer_lookup_hit py_type numba_type self :
  dict_lookup (lookup self) py_type = Some numba_type ->
  isinstance_Type numba_type = true ->
  try_infer py_type self = (Ok numba_type, self).
Proof.
  intros Hl Ht.
  rewrite try_infer_eq, try_infer_body_checked, dict_get_lookup, Hl.
  rewrite for_functions_present by (apply isinstance_Type_not_None, Ht).
  unfold bind, ret; simpl.
  rewrite checked_Type by exact Ht; reflexivity.
Qed.

Lemma try_infer_unanswered py_type self :
  dict_lookup (lookup self) py_type = None ->
  Forall (fun func => fst (call_function infer py_type func self) = Ok PyNone)
    (functions self) ->
  try_infer py_type self = (Ok PyNone, self).
Proof.
  intros Hl Hf.
  rewrite try_infer_eq, try_infer_body_checked, dict_get_lookup, Hl.
  apply call_function_answers_None in Hf.
  assert (E : for_functions (call_function infer py_type) (functions self)
                PyNone self = (Ok PyNone, self)).
  { pose proof (for_functions_skip _ _ [] _ Hf) as E.
    rewrite app_nil_r in E; exact E. }
  rewrite (bind_Ok _ _ _ _ _ E); reflexivity.
Qed.

Lemma try_infer_first_answer py_type self pre func post result :
  dict_lookup (lookup self) py_type = None ->
  functions self = pre ++ func :: post ->
  Forall (fun f => fst (call_function infer py_type f self) = Ok PyNone) pre ->
  fst (call_function infer py_type func self) = Ok result ->
  is_not_None result = true ->
  try_infer py_type self = checked result self.
Proof.
  intros Hl Hfs Hpre Hf Hr.
  rewrite try_infer_eq, try_infer_body_checked, dict_get_lookup, Hl, Hfs.
  apply call_function_answers_None in Hpre.
  assert (E : for_functions (call_function infer py_type)
                (pre ++ func :: post) PyNone self = (Ok result, self)).
  { rewrite (for_functions_skip _ _ _ _ Hpre), for_functions_cons_None.
    erewrite bind_Ok; [| rewrite call_function_run, Hf; reflexivity].
    rewrite for_functions_present by exact Hr; reflexivity. }
  rewrite (bind_Ok _ _ _ _ _ E); reflexivity.
Qed.

(** *** What [_builtin_infer] does, shape by shape *)

Hypothesis PYVERSION_supported : version_ge PYVERSION (3, 7) = true.

Lemma py_version_switch_new {A} (new_result old_result : A) :
  _py_version_switch (3, 7) new_result old_result = new_result.
Proof. unfold _py_version_switch; rewrite PYVERSION_supported; reflexivity. Qed.

Ltac builtin_unfold :=
  unfold _builtin_infer; rewrite !py_version_switch_new; cbn beta iota zeta.

Lemma builtin_infer_not_generic self_infer py_type :
  isinstance_GenericAlias py_type = false ->
  _builtin_infer self_infer py_type = ret PyNone.
Proof. intros H; builtin_unfold; rewrite H; reflexivity. Qed.

Lemma builtin_infer_Annotated_1 self_infer inner_py_type nb_type :
  _builtin_infer self_infer (PyAnnotated inner_py_type [nb_type]) =
  self_infer nb_type.
Proof. builtin_unfold; reflexivity. Qed.

Lemma builtin_infer_Annotated_array self_infer inner_py_type dtype ndim rest :
  (List.length rest <= 1)%nat ->
  py_is inner_py_type np_ndarray = true ->
  isinstance_int ndim = true ->
  _builtin_infer self_infer (PyAnnotated inner_py_type (dtype :: ndim :: rest)) =
  (t <- self_infer dtype ;; ret (NbArray t ndim (layout_of rest))).
Proof.
  intros Hlen Hinner Hint; builtin_unfold; simpl hasattr_metadata; cbn iota.
  rewrite Hinner, Hint.
  destruct rest as [| layout [| x rest]]; simpl in *; try reflexivity; lia.
Qed.

Lemma builtin_infer_Annotated_invalid self_infer inner_py_type annotations :
  List.length annotations <> 1%nat ->
  (match annotations with
   | _ :: ndim :: rest =>
       (1 <? List.length rest)%nat
       || negb (py_is inner_py_type np_ndarray)
       || negb (isinstance_int ndim)
   | _ => true
   end = true) ->
  _builtin_infer self_infer (PyAnnotated inner_py_type annotations) =
  raise (TypingError Invalid_Annotated_syntax).
Proof.
  intros Hlen H; builtin_unfold; simpl hasattr_metadata; cbn iota.
  destruct annotations as [| a0 [| a1 rest]]; simpl in *;
    [reflexivity | congruence |].
  destruct (py_is inner_py_type np_ndarray), (isinstance_int a1);
    rewrite ?andb_false_r; try reflexivity.
  destruct rest as [| l [| x rest]]; simpl in *; try discriminate;
    reflexivity.
Qed.

Lemma builtin_infer_Union_arity self_infer py_type_args :
  List.length py_type_args <> 2%nat ->
  _builtin_infer self_infer (PyGenericAlias pt_Union py_type_args) =
  raise (TypingError Cannot_type_Union_of_more_than_two_types).
Proof.
  intros H; builtin_unfold; simpl.
  destruct py_type_args as [| a [| b [| c r]]]; simpl in *;
    try reflexivity; congruence.
Qed.

Lemma builtin_infer_Union_2 self_infer arg_1_py arg_2_py :
  _builtin_infer self_infer (PyGenericAlias pt_Union [arg_1_py; arg_2_py]) =
  if py_is arg_2_py py_NoneType then
    t <- self_infer arg_1_py ;; ret (NbOptional t)
  else if py_is arg_1_py py_NoneType then
    t <- self_infer arg_2_py ;; ret (NbOptional t)
  else
    raise (TypingError (Cannot_type_Union_that_is_not_an_Optional arg_2_py)).
Proof. builtin_unfold; reflexivity. Qed.

(** *** From the built-in function to [try_infer] and [infer] *)

Lemma resolves_as_intro py_type m :
  (forall self, _builtin_infer infer py_type self = m self) ->
  (forall self t self', m self = (Ok t, self') -> isinstance_Type t = true) ->
  resolves_as py_type m.
Proof.
  intros Hb Ht; split; [exact Hb |].
  intros self [funcs Hfs] Hl.
  assert (E : try_infer py_type self = m self).
  { rewrite try_infer_eq, try_infer_body_checked, dict_get_lookup, Hl, Hfs.
    rewrite for_functions_cons_None; simpl call_function.
    specialize (Hb self); specialize (Ht self).
    destruct (m self) as [[t | e] self'] eqn:Em.
    - specialize (Ht _ _ eq_refl).
      rewrite (bind_Ok _ _ self t self');
        [rewrite checked_Type by exact Ht; reflexivity |].
      rewrite (bind_Ok _ _ _ _ _ Hb).
      rewrite for_functions_present by (apply isinstance_Type_not_None, Ht).
      reflexivity.
    - apply bind_Raise, bind_Raise; exact Hb. }
  split; [exact E |].
  rewrite infer_eq; unfold infer_body.
  specialize (Ht self).
  destruct (m self) as [[t | e] self'] eqn:Em.
  - rewrite (bind_Ok _ _ _ _ _ E).
    specialize (Ht _ _ eq_refl); destruct t; try discriminate; reflexivity.
  - rewrite (bind_Raise _ _ _ _ _ E); reflexivity.
Qed.

Lemma bind_ret_Type (m : M pyobj) (f : pyobj -> pyobj) self t self' :
  (forall x, isinstance_Type (f x) = true) ->
  (x <- m ;; ret (f x)) self = (Ok t, self') -> isinstance_Type t = true.
Proof.
  intros Hf H.
  apply bind_inv in H as [(a & s & _ & H) | (e & _ & H)]; [| discriminate].
  inversion H; subst; apply Hf.
Qed.

(** *** The kind of exception *)














(** ** The registry at construction *)

(** C1 (as the code has it): [__init__] leaves in [self.functions] exactly
    the three built-in functions, in the order generic/metadata-shape
    ([_builtin_infer]), passthrough of a numba type ([_numba_type_infer]),
    native scalar kind ([_numpy_type_infer]); and [try_infer], on a type
    with no table entry, asks them in that order, each only when the ones
    before it answered [None]. *)
Theorem C1_builtin_functions_in_order :
  functions __init__ =
    [Bound_builtin_infer; Bound_numba_type_infer; Bound_numpy_type_infer]
  /\ forall py_type,
       dict_lookup (lookup __init__) py_type = None ->
       try_infer py_type __init__ =
       (result <-
          (r1 <- _builtin_infer infer py_type ;;
           if is_not_None r1 then ret r1 else
           r2 <- _numba_type_infer py_type ;;
           if is_not_None r2 then ret r2 else
           r3 <- _numpy_type_infer py_type ;;
           ret r3) ;;
        checked result) __init__.
Proof.
  split; [reflexivity |].
  intros py_type Hl.
  rewrite try_infer_eq, try_infer_body_checked, dict_get_lookup, Hl.
  reflexivity.
Qed.

(** ** Metadata wrappers *)

(** C9: resolving [Annotated[inner, M]], a wrapper with the single
    metadata element [M], is resolving [M]; the wrapped type [inner] plays
    no part.  ([resolves_as]: so answers the built-in function on every
    registry, and so do [try_infer] and [infer] wherever that function comes
    first and the table has no entry for the wrapper itself.) *)
Theorem C9_Annotated_single_metadata inner_py_type nb_type :
  resolves_as (PyAnnotated inner_py_type [nb_type]) (infer nb_type).
Proof.
  apply resolves_as_intro.
  - intros self; rewrite builtin_infer_Annotated_1; reflexivity.
  - intros self t self'; apply infer_Ok.
Qed.

(** C2 (as the code has it): for a wrapper around the array sentinel whose
    metadata has two or three elements, the second of them an integer,
    resolution returns the Array whose dtype is the resolution of the
    first metadata element, whose ndim is that integer and whose layout is
    the third metadata element if there is one, else "A"; when the first
    metadata element does not resolve, its failure is the outcome. *)
Theorem C2_Annotated_array inner_py_type dtype ndim rest :
  (List.length rest <= 1)%nat ->
  py_is inner_py_type np_ndarray = true ->
  isinstance_int ndim = true ->
  resolves_as (PyAnnotated inner_py_type (dtype :: ndim :: rest))
    (t <- infer dtype ;; ret (NbArray t ndim (layout_of rest))).
Proof.
  intros Hlen Hinner Hint; apply resolves_as_intro.
  - intros self; rewrite builtin_infer_Annotated_array by assumption.
    reflexivity.
  - intros self t self'.
    apply (bind_ret_Type _ (fun t => NbArray t ndim (layout_of rest))).
    reflexivity.
Qed.

(** C3: [Annotated[np.ndarray, dtype_descriptor, 2]] resolves to
    [Array(dtype=resolve(dtype_descriptor), ndim=2, layout="A")], and
    [Annotated[np.ndarray, dtype_descriptor, 2, "C"]] to the same Array
    with layout "C". *)
Theorem C3_Annotated_ndarray_ndim_2 dtype_descriptor :
  resolves_as (PyAnnotated np_ndarray [dtype_descriptor; PyInt 2])
    (t <- infer dtype_descriptor ;;
     ret (NbArray t (PyInt 2) (PyStr "A")))
  /\ resolves_as
       (PyAnnotated np_ndarray [dtype_descriptor; PyInt 2; PyStr "C"])
       (t <- infer dtype_descriptor ;;
        ret (NbArray t (PyInt 2) (PyStr "C"))).
Proof.
  split; apply resolves_as_intro;
    try (intros self; rewrite builtin_infer_Annotated_array;
         first [reflexivity | simpl; lia]);
    intros self t self';
    match goal with
    | |- (_ <- _ ;; ret (NbArray _ ?n ?l)) _ = _ -> _ =>
        apply (bind_ret_Type _ (fun t => NbArray t n l)); reflexivity
    end.
Qed.

(** ** Unions *)

(** C5: a union whose argument sequence has not exactly two members fails
    with a TypingError; a union of two members of which exactly one is
    [NoneType] resolves to Optional of the resolution of the other; a
    union of two members neither of which is [NoneType] fails with a
    TypingError. *)
Theorem C5_Union py_type_args :
  (List.length py_type_args <> 2%nat ->
   resolves_as (PyGenericAlias pt_Union py_type_args)
     (raise (TypingError Cannot_type_Union_of_more_than_two_types)))
  /\ (forall arg_1_py arg_2_py,
        py_type_args = [arg_1_py; arg_2_py] ->
        (py_is arg_1_py py_NoneType = false ->
         py_is arg_2_py py_NoneType = true ->
         resolves_as (PyGenericAlias pt_Union py_type_args)
           (t <- infer arg_1_py ;; ret (NbOptional t)))
        /\ (py_is arg_1_py py_NoneType = true ->
            py_is arg_2_py py_NoneType = false ->
            resolves_as (PyGenericAlias pt_Union py_type_args)
              (t <- infer arg_2_py ;; ret (NbOptional t)))
        /\ (py_is arg_1_py py_NoneType = false ->
            py_is arg_2_py py_NoneType = false ->
            resolves_as (PyGenericAlias pt_Union py_type_args)
              (raise
                 (TypingError
                    (Cannot_type_Union_that_is_not_an_Optional arg_2_py))))).
Proof.
  split.
  - intros Hlen; apply resolves_as_intro.
    + intros self; rewrite builtin_infer_Union_arity by exact Hlen.
      reflexivity.
    + discriminate.
  - intros arg_1_py arg_2_py ->; split; [| split]; intros H1 H2;
      apply resolves_as_intro;
      try (intros self; rewrite builtin_infer_Union_2, ?H2, ?H1; reflexivity);
      try discriminate;
      intros self t self'; apply (bind_ret_Type _ NbOptional); reflexivity.
Qed.

(** ** The table before the functions *)

(** C4: when the table has an entry for a python type, [try_infer] returns
    that entry whatever the list of functions is: no function is asked,
    and registering one more function leaves the result as it was. *)
Theorem C4_lookup_entry_wins py_type numba_type self :
  lookup_holds_types self ->
  dict_lookup (lookup self) py_type = Some numba_type ->
  try_infer py_type self = (Ok numba_type, self)
  /\ (forall funcs,
        fst (try_infer py_type
               {| lookup := lookup self; functions := funcs |})
        = Ok numba_type)
  /\ (forall func,
        fst (try_infer py_type (snd (register (Func func) PyNone self)))
        = Ok numba_type).
Proof.
  intros Hinv Hl.
  pose proof (dict_lookup_holds_types _ _ _ Hinv Hl) as Ht.
  split; [| split].
  - apply try_infer_lookup_hit; assumption.
  - intros funcs; rewrite try_infer_lookup_hit with (numba_type := numba_type);
      [reflexivity | exact Hl | exact Ht].
  - intros func; rewrite try_infer_lookup_hit with (numba_type := numba_type);
      [reflexivity | exact Hl | exact Ht].
Qed.

(** ** Absent results and malformed results *)

(** C6: when the table has no entry for a python type and every function
    of the list answers [None] on it, [try_infer] returns [None] and
    [infer] raises the TypingError that names the python type; and when
    [try_infer] returns a result other than [None], [infer] returns that
    very result. *)
Theorem C6_infer_after_try_infer py_type self :
  (dict_lookup (lookup self) py_type = None ->
   Forall (fun func => fst (call_function infer py_type func self) = Ok PyNone)
     (functions self) ->
   try_infer py_type self = (Ok PyNone, self)
   /\ infer py_type self =
      (Raise (TypingError (Cannot_infer_numba_type_of_python_type py_type)),
       self))
  /\ (forall result,
        fst (try_infer py_type self) = Ok result ->
        is_not_None result = true ->
        infer py_type self = (Ok result, self)).
Proof.
  split.
  - intros Hl Hf.
    pose proof (try_infer_unanswered _ _ Hl Hf) as E.
    split; [exact E |].
    rewrite infer_eq; unfold infer_body.
    rewrite (bind_Ok _ _ _ _ _ E); reflexivity.
  - intros result Hr Hn.
    assert (E : try_infer py_type self = (Ok result, self))
      by (rewrite try_infer_run, Hr; reflexivity).
    rewrite infer_eq; unfold infer_body.
    rewrite (bind_Ok _ _ _ _ _ E).
    destruct result; try discriminate; reflexivity.
Qed.

(** C7: [try_infer] never returns an object that is neither [None] nor a
    numba type; and when the table has no entry for a python type and the
    first function of the list to answer something other than [None]
    answers an object that is no numba type, [try_infer] raises a
    TypingError (about that object), and so does [infer]. *)
Theorem C7_result_that_is_no_numba_type py_type self :
  (forall r self',
     try_infer py_type self = (Ok r, self') ->
     is_not_None r = true -> isinstance_Type r = true)
  /\ (forall pre func post result,
        dict_lookup (lookup self) py_type = None ->
        functions self = pre ++ func :: post ->
        Forall (fun f => fst (call_function infer py_type f self) = Ok PyNone)
          pre ->
        fst (call_function infer py_type func self) = Ok result ->
        is_not_None result = true ->
        isinstance_Type result = false ->
        try_infer py_type self =
          (Raise (TypingError (as_numba_type_should_return_a_numba_type result)),
           self)
        /\ infer py_type self =
           (Raise (TypingError (as_numba_type_should_return_a_numba_type result)),
            self)).
Proof.
  split; [intros r self'; apply try_infer_Ok |].
  intros pre func post result Hl Hfs Hpre Hf Hn Ht.
  assert (E : try_infer py_type self =
              (Raise (TypingError
                        (as_numba_type_should_return_a_numba_type result)),
               self)).
  { rewrite (try_infer_first_answer _ _ _ _ _ _ Hl Hfs Hpre Hf Hn).
    unfold checked; rewrite Hn, Ht; reflexivity. }
  split; [exact E |].
  rewrite infer_eq; unfold infer_body.
  apply bind_Raise; exact E.
Qed.

(** ** The kind of a failure *)


(** An unhashable argument makes [try_infer] and [infer] raise TypeError,
    whatever the registry holds. *)
Lemma unhashable_raises_TypeError type_name self :
  try_infer_object (Unhashable type_name) self =
    (Raise (OtherError "TypeError"), self)
  /\ infer_object (Unhashable type_name) self =
     (Raise (OtherError "TypeError"), self).
Proof. split; reflexivity. Qed.

(** ** Beyond the built-in shapes: the table, [register] and the other
    functions *)

(** *** Equality of keys *)

Lemma list_eqb_refl {A} (eq : A -> A -> bool) (l : list A) :
  Forall (fun x => eq x x = true) l -> list_eqb eq l l = true.
Proof.
  induction 1 as [| x l Hx _ IH]; simpl; [reflexivity |].
  rewrite Hx, IH; reflexivity.
Qed.

Lemma forallb_existsb_refl {A} (eq : A -> A -> bool) (l : list A) :
  Forall (fun x => eq x x = true) l ->
  forallb (fun x => existsb (fun y => eq x y) l) l = true
  /\ forallb (fun y => existsb (fun x => eq x y) l) l = true.
Proof.
  intros H; rewrite Forall_forall in H.
  split; apply forallb_forall; intros x Hx; apply existsb_exists;
    exists x; auto.
Qed.

Lemma string_list_eqb_refl (l : list string) : list_eqb String.eqb l l = true.
Proof.
  apply list_eqb_refl, Forall_forall; intros x _; apply String.eqb_refl.
Qed.

Lemma py_cmp_refl strict x : py_cmp strict x x = true.
Proof.
  induction x using pyobj_nested_ind; simpl;
    rewrite ?Bool.eqb_reflx, ?Z.eqb_refl, ?String.eqb_refl,
      ?string_list_eqb_refl;
    repeat match goal with
           | H : py_cmp _ ?x ?x = true |- _ => rewrite H; clear H
           end;
    simpl; try reflexivity.
  - destruct (negb strict && is_typing_Union x).
    + destruct (forallb_existsb_refl (py_cmp strict) a H) as [-> ->].
      reflexivity.
    + apply list_eqb_refl, H.
  - apply list_eqb_refl; assumption.
  - apply list_eqb_refl; assumption.
Qed.

Lemma py_eq_refl x : py_eq x x = true.
Proof. apply py_cmp_refl. Qed.

(** *** The table under [d[key] = value] *)

Lemma dict_lookup_setitem_same d key value :
  dict_lookup (dict_setitem d key value) key = Some value.
Proof.
  induction d as [| [k v] d IH]; simpl.
  - rewrite py_eq_refl; reflexivity.
  - destruct (py_eq k key) eqn:E; simpl; rewrite E; [reflexivity | exact IH].
Qed.

Lemma dict_lookup_setitem_keeps d key value key' v :
  dict_lookup d key' = Some v ->
  exists v', dict_lookup (dict_setitem d key value) key' = Some v'.
Proof.
  induction d as [| [k0 v0] d IH]; simpl; [discriminate |].
  destruct (py_eq k0 key) eqn:E; simpl;
    destruct (py_eq k0 key') eqn:E'; intros H; eauto.
Qed.

Lemma forallb_ext_in {A} (f g : A -> bool) (l : list A) :
  (forall x, In x l -> f x = g x) -> forallb f l = forallb g l.
Proof.
  induction l as [| x l IH]; simpl; intros H; [reflexivity |].
  rewrite (H x) by (left; reflexivity).
  rewrite IH by (intros y Hy; apply H; right; exact Hy); reflexivity.
Qed.

Lemma existsb_ext_in {A} (f g : A -> bool) (l : list A) :
  (forall x, In x l -> f x = g x) -> existsb f l = existsb g l.
Proof.
  induction l as [| x l IH]; simpl; intros H; [reflexivity |].
  rewrite (H x) by (left; reflexivity).
  rewrite IH by (intros y Hy; apply H; right; exact Hy); reflexivity.
Qed.

Lemma list_eqb_sym {A} (eq : A -> A -> bool) (l : list A) :
  Forall (fun x => forall y, eq x y = eq y x) l ->
  forall r, list_eqb eq l r = list_eqb eq r l.
Proof.
  induction 1 as [| x l Hx _ IH]; intros [| y r]; simpl; try reflexivity.
  rewrite Hx, IH; reflexivity.
Qed.

Lemma list_eqb_trans {A} (eq : A -> A -> bool) (l : list A) :
  Forall (fun x => forall y z, eq x y = true -> eq y z = true -> eq x z = true)
    l ->
  forall m r,
    list_eqb eq l m = true -> list_eqb eq m r = true -> list_eqb eq l r = true.
Proof.
  induction 1 as [| x l Hx _ IH]; intros [| y m] [| z r]; simpl;
    try discriminate; try reflexivity.
  rewrite !andb_true_iff; intros [H1 H2] [H3 H4]; split; eauto.
Qed.

Lemma string_list_eqb_eq (l r : list string) :
  list_eqb String.eqb l r = true -> l = r.
Proof.
  revert r; induction l as [| x l IH]; intros [| y r]; simpl;
    try discriminate; try reflexivity.
  rewrite andb_true_iff; intros [H1 H2].
  apply String.eqb_eq in H1; subst; f_equal; auto.
Qed.

Lemma is_typing_Union_py_cmp strict x y :
  py_cmp strict x y = true -> is_typing_Union x = is_typing_Union y.
Proof.
  destruct x, y; simpl; try discriminate; try reflexivity.
  intros H; apply String.eqb_eq in H; subst; reflexivity.
Qed.

Lemma same_members_sym eq a a' :
  Forall (fun x => forall y, eq x y = eq y x) a ->
  same_members eq a a' = same_members eq a' a.
Proof.
  intros H; rewrite Forall_forall in H; unfold same_members.
  rewrite andb_comm; f_equal.
  - apply forallb_ext_in; intros y _; apply existsb_ext_in; intros x Hx.
    apply H, Hx.
  - apply forallb_ext_in; intros x Hx; apply existsb_ext_in; intros y _.
    apply H, Hx.
Qed.

Lemma same_members_trans eq a a' a'' :
  Forall (fun x => forall y z, eq x y = true -> eq y z = true -> eq x z = true)
    a ->
  same_members eq a a' = true -> same_members eq a' a'' = true ->
  same_members eq a a'' = true.
Proof.
  intros H; rewrite Forall_forall in H; unfold same_members.
  rewrite !andb_true_iff, !forallb_forall; intros [H1 H2] [H3 H4]; split.
  - intros x Hx.
    destruct (proj1 (existsb_exists _ _) (H1 x Hx)) as (y & Hy & Exy).
    destruct (proj1 (existsb_exists _ _) (H3 y Hy)) as (z & Hz & Eyz).
    apply existsb_exists; exists z; split; [exact Hz | eauto].
  - intros z Hz.
    destruct (proj1 (existsb_exists _ _) (H4 z Hz)) as (y & Hy & Eyz).
    destruct (proj1 (existsb_exists _ _) (H2 y Hy)) as (x & Hx & Exy).
    apply existsb_exists; exists x; split; [exact Hx | eauto].
Qed.

Lemma py_cmp_sym strict x : forall y, py_cmp strict x y = py_cmp strict y x.
Proof.
  induction x using pyobj_nested_ind; intros [];
    simpl; try reflexivity;
    rewrite ?(Z.eqb_sym z), ?(String.eqb_sym s), ?(String.eqb_sym n);
    try reflexivity.
  - destruct b, b0; reflexivity.
  - f_equal; apply list_eqb_sym, Forall_forall; intros x _ y.
    apply String.eqb_sym.
  - rewrite IHx; destruct (py_cmp strict origin x) eqn:E; [| reflexivity].
    rewrite (is_typing_Union_py_cmp _ _ _ E); simpl.
    destruct (negb strict && is_typing_Union x).
    + apply (same_members_sym (py_cmp strict)), H.
    + apply list_eqb_sym, H.
  - rewrite IHx; f_equal; apply list_eqb_sym, H.
  - apply IHx.
  - apply IHx.
  - rewrite IHx1, IHx2; reflexivity.
  - apply IHx.
  - apply list_eqb_sym, H.
  - rewrite IHx1, IHx2, IHx3; reflexivity.
Qed.

Lemma py_cmp_trans strict x :
  forall y z,
    py_cmp strict x y = true -> py_cmp strict y z = true ->
    py_cmp strict x z = true.
Proof.
  induction x using pyobj_nested_ind; intros [] []; simpl;
    try discriminate; try reflexivity;
    rewrite ?andb_true_iff, ?Z.eqb_eq, ?String.eqb_eq;
    try (intros; subst; reflexivity || tauto).
  - destruct b, b0, b1; simpl; try discriminate; reflexivity.
  - destruct b, b0; simpl; try discriminate; tauto.
  - intros [_ <-] [_ E]; destruct b, b0; simpl in *; try discriminate;
      reflexivity.
  - intros [Hs ->]; destruct b, b0; simpl; try discriminate; tauto.
  - intros [_ ->] [_ <-]; reflexivity.
  - intros [-> H1] [-> H2]; split; [reflexivity |].
    apply string_list_eqb_eq in H1, H2; subst; apply string_list_eqb_refl.
  - intros [Ho H1] [Ho' H2]; split; [eauto |].
    rewrite <- (is_typing_Union_py_cmp _ _ _ Ho) in H2.
    destruct (negb strict && is_typing_Union x).
    + eapply (same_members_trans (py_cmp strict)); eassumption.
    + eapply list_eqb_trans; eassumption.
  - intros [Ho H1] [Ho' H2]; split; [eauto |].
    eapply list_eqb_trans; eassumption.
  - apply IHx.
  - apply IHx.
  - intros [? ?] [? ?]; split; eauto.
  - apply IHx.
  - apply list_eqb_trans, H.
  - intros [[? ?] ?] [[? ?] ?]; repeat split; eauto.
Qed.

Lemma py_eq_sym x y : py_eq x y = py_eq y x.
Proof. apply py_cmp_sym. Qed.

Lemma py_eq_trans x y z :
  py_eq x y = true -> py_eq y z = true -> py_eq x z = true.
Proof. apply py_cmp_trans. Qed.

(** A key equal to one and not to the other tells two keys apart. *)
Lemma py_eq_apart k0 key key' :
  py_eq k0 key = true -> py_eq key key' = false -> py_eq k0 key' = false.
Proof.
  intros H1 H2; destruct (py_eq k0 key') eqn:E; [| reflexivity].
  rewrite <- H2; symmetry.
  apply (py_eq_trans key k0 key'); [rewrite py_eq_sym; exact H1 | exact E].
Qed.

Lemma dict_lookup_setitem_other d key value key' :
  py_eq key key' = false ->
  dict_lookup (dict_setitem d key value) key' = dict_lookup d key'.
Proof.
  intros Hne; induction d as [| [k0 v0] d IH]; simpl.
  - rewrite Hne; reflexivity.
  - destruct (py_eq k0 key) eqn:E; simpl.
    + rewrite (py_eq_apart _ _ _ E Hne); reflexivity.
    + destruct (py_eq k0 key'); [reflexivity | exact IH].
Qed.

(** Two equal keys find the same entry. *)
Lemma dict_lookup_py_eq d key key' :
  py_eq key key' = true -> dict_lookup d key = dict_lookup d key'.
Proof.
  intros He; induction d as [| [k0 v0] d IH]; simpl; [reflexivity |].
  destruct (py_eq k0 key) eqn:E, (py_eq k0 key') eqn:E'; try reflexivity;
    try exact IH.
  - rewrite (py_eq_trans _ _ _ E He) in E'; discriminate.
  - rewrite py_eq_sym in He.
    rewrite (py_eq_trans _ _ _ E' He) in E; discriminate.
Qed.

(** *** [register] and the table *)

Lemma infer_of_try_infer py_type self r self' :
  try_infer py_type self = (Ok r, self') -> is_not_None r = true ->
  infer py_type self = (Ok r, self').
Proof.
  intros E Hr; rewrite infer_eq; unfold infer_body.
  rewrite (bind_Ok _ _ _ _ _ E).
  destruct r; try discriminate; reflexivity.
Qed.

Lemma with_entry_eq self py_type numba_type :
  isinstance_Type numba_type = true ->
  with_entry self py_type numba_type =
  {| lookup := dict_setitem (lookup self) py_type numba_type;
     functions := functions self |}.
Proof.
  intros Ht; unfold with_entry, register.
  rewrite (isinstance_Type_not_None _ Ht), Ht; reflexivity.
Qed.

Lemma with_entry_cases self py_type numba_type :
  with_entry self py_type numba_type = self
  \/ (isinstance_Type numba_type = true
      /\ with_entry self py_type numba_type =
         {| lookup := dict_setitem (lookup self) py_type numba_type;
            functions := functions self |}).
Proof.
  destruct (isinstance_Type numba_type) eqn:Ht.
  - right; split; [reflexivity | apply with_entry_eq, Ht].
  - left; unfold with_entry, register; rewrite Ht.
    destruct (is_not_None numba_type); reflexivity.
Qed.

(** X1: after [register(py_type, numba_type)] with a numba type,
    [try_infer] and [infer] return [numba_type] for [py_type] and for every
    key equal to it, whatever the table held for it before and whatever the
    functions are. *)
Theorem X1_register_then_infer self py_type numba_type key :
  isinstance_Type numba_type = true ->
  py_eq py_type key = true ->
  try_infer key (with_entry self py_type numba_type) =
    (Ok numba_type, with_entry self py_type numba_type)
  /\ infer key (with_entry self py_type numba_type) =
     (Ok numba_type, with_entry self py_type numba_type).
Proof.
  intros Ht He.
  assert (E : try_infer key (with_entry self py_type numba_type) =
              (Ok numba_type, with_entry self py_type numba_type)).
  { apply try_infer_lookup_hit; [| exact Ht].
    rewrite with_entry_eq by exact Ht; simpl.
    rewrite <- (dict_lookup_py_eq _ _ _ He).
    apply dict_lookup_setitem_same. }
  split; [exact E |].
  apply infer_of_try_infer; [exact E | apply isinstance_Type_not_None, Ht].
Qed.

(** X2: [register(py_type, numba_type)] leaves alone the entry of every key
    not equal to [py_type], and the list of functions; a key that had an
    entry resolves to it as before. *)
Theorem X2_register_leaves_other_keys self py_type numba_type key :
  py_eq py_type key = false ->
  dict_lookup (lookup (with_entry self py_type numba_type)) key =
    dict_lookup (lookup self) key
  /\ functions (with_entry self py_type numba_type) = functions self
  /\ (forall v,
        lookup_holds_types self ->
        dict_lookup (lookup self) key = Some v ->
        try_infer key (with_entry self py_type numba_type) =
          (Ok v, with_entry self py_type numba_type)).
Proof.
  intros Hne.
  assert (El : dict_lookup (lookup (with_entry self py_type numba_type)) key =
               dict_lookup (lookup self) key).
  { destruct (with_entry_cases self py_type numba_type) as [-> | [_ ->]];
      [reflexivity | apply dict_lookup_setitem_other, Hne]. }
  split; [exact El |].
  split.
  - destruct (with_entry_cases self py_type numba_type) as [-> | [_ ->]];
      reflexivity.
  - intros v Hinv Hv; apply try_infer_lookup_hit.
    + rewrite El; exact Hv.
    + eapply dict_lookup_holds_types; eassumption.
Qed.

(** *** Registries within reach *)

Lemma reachable_builtins_first self : reachable self -> builtins_first self.
Proof.
  induction 1 as [| self arg numba_type r self' _ IH Hreg].
  - eexists; reflexivity.
  - apply register_inv in Hreg
      as [-> | [(py_type & Ht & ->) | (func & ->)]]; try exact IH.
    destruct IH as [funcs E]; unfold builtins_first; simpl; rewrite E.
    eexists; reflexivity.
Qed.

Lemma reachable_keeps_entries self key :
  reachable self ->
  (exists v, dict_lookup (lookup __init__) key = Some v) ->
  exists v, dict_lookup (lookup self) key = Some v.
Proof.
  intros Hr H0; induction Hr as [| self arg numba_type r self' _ IH Hreg].
  - exact H0.
  - apply register_inv in Hreg
      as [-> | [(py_type & Ht & ->) | (func & ->)]]; try exact IH.
    destruct IH as [v Hv]; simpl.
    eapply dict_lookup_setitem_keeps; exact Hv.
Qed.

Lemma seeded_classes_init key :
  In key seeded_classes ->
  exists v, dict_lookup (lookup __init__) key = Some v.
Proof.
  intros [<- | [<- | [<- | [<- | [<- | [<- | []]]]]]];
    eexists; reflexivity.
Qed.

(** X4: every registry made by [__init__] and any number of [register]
    calls has the three built-in functions at the head of its list, in the
    order of [__init__], holds only numba types in its table, and still has
    an entry for each of the six classes [__init__] put there. *)
Theorem X4_reachable_invariants self :
  reachable self ->
  builtins_first self
  /\ lookup_holds_types self
  /\ (forall key,
        In key seeded_classes ->
        exists v, dict_lookup (lookup self) key = Some v).
Proof.
  intros Hr; split; [apply reachable_builtins_first, Hr |].
  split; [apply reachable_lookup_holds_types, Hr |].
  intros key Hk; apply reachable_keeps_entries;
    [exact Hr | apply seeded_classes_init, Hk].
Qed.

(** X5: on every registry made by [__init__] and [register] calls, [infer]
    returns a numba type for [int], [float], [complex], [str], [bool] and
    [NoneType]: registrations can change what they resolve to, not whether
    they resolve. *)
Theorem X5_seeded_classes_resolve self key :
  reachable self ->
  In key seeded_classes ->
  exists t, infer key self = (Ok t, self) /\ isinstance_Type t = true.
Proof.
  intros Hr Hk.
  destruct (reachable_keeps_entries _ _ Hr (seeded_classes_init _ Hk))
    as [v Hv].
  pose proof (dict_lookup_holds_types _ _ _
                (reachable_lookup_holds_types _ Hr) Hv) as Ht.
  exists v; split; [| exact Ht].
  apply infer_of_try_infer;
    [apply try_infer_lookup_hit; assumption
    | apply isinstance_Type_not_None, Ht].
Qed.

(** *** The other two built-in functions *)

Lemma isinstance_Type_not_generic t :
  isinstance_Type t = true -> isinstance_GenericAlias t = false.
Proof. destruct t; simpl; intros H; try discriminate; reflexivity. Qed.

Lemma try_infer_numba_type self t :
  builtins_first self ->
  isinstance_Type t = true ->
  dict_lookup (lookup self) t = None ->
  try_infer t self = (Ok t, self).
Proof.
  intros [funcs Hfs] Ht Hl.
  rewrite (try_infer_first_answer t self [Bound_builtin_infer]
             Bound_numba_type_infer (Bound_numpy_type_infer :: funcs) t).
  - rewrite checked_Type by exact Ht; reflexivity.
  - exact Hl.
  - exact Hfs.
  - constructor; [| constructor]; simpl.
    rewrite builtin_infer_not_generic
      by (apply isinstance_Type_not_generic, Ht); reflexivity.
  - simpl; unfold _numba_type_infer; rewrite Ht; reflexivity.
  - apply isinstance_Type_not_None, Ht.
Qed.

(** X8: a numba type resolves to itself, and so resolution is idempotent:
    on a registry that has the built-in functions first, [try_infer] and
    [infer] return a numba type that is no key of the table as it is; in
    particular what [infer] returned, [infer] returns again for it. *)
Theorem X8_numba_type_passthrough self :
  builtins_first self ->
  (forall t,
     isinstance_Type t = true ->
     dict_lookup (lookup self) t = None ->
     try_infer t self = (Ok t, self) /\ infer t self = (Ok t, self))
  /\ (forall py_type t,
        fst (infer py_type self) = Ok t ->
        dict_lookup (lookup self) t = None ->
        infer t self = (Ok t, self)).
Proof.
  intros Hb.
  assert (H : forall t,
             isinstance_Type t = true ->
             dict_lookup (lookup self) t = None ->
             try_infer t self = (Ok t, self) /\ infer t self = (Ok t, self)).
  { intros t Ht Hl.
    pose proof (try_infer_numba_type self t Hb Ht Hl) as E.
    split; [exact E |].
    apply infer_of_try_infer; [exact E | apply isinstance_Type_not_None, Ht]. }
  split; [exact H |].
  intros py_type t Hi Hl; apply H; [| exact Hl].
  eapply infer_Ok; rewrite infer_run, Hi; reflexivity.
Qed.

Lemma class_not_Type py_type :
  inspect_isclass py_type = true ->
  isinstance_Type py_type = false /\ isinstance_GenericAlias py_type = false.
Proof. destruct py_type; simpl; intros H; try discriminate; split; reflexivity. Qed.

(** X9: for a class derived from [np.generic] that is no key of the table,
    on a registry with the built-in functions first, the answer is that of
    [numpy_support.from_dtype]: a numba type it returns is the result of
    [try_infer] and [infer]; an exception it raises comes out of both, of
    [try_infer] too. *)
Theorem X9_numpy_scalar_class self py_type :
  builtins_first self ->
  dict_lookup (lookup self) py_type = None ->
  inspect_isclass py_type && issubclass py_type np_generic_name = true ->
  (forall t,
     numpy_support_from_dtype py_type = Ok t ->
     isinstance_Type t = true ->
     try_infer py_type self = (Ok t, self) /\ infer py_type self = (Ok t, self))
  /\ (forall e,
        numpy_support_from_dtype py_type = Raise e ->
        try_infer py_type self = (Raise e, self)
        /\ infer py_type self = (Raise e, self)).
Proof.
  intros [funcs Hfs] Hl Hc.
  pose proof Hc as Hc'; apply andb_prop in Hc' as [Hclass _].
  destruct (class_not_Type _ Hclass) as [HnT HnG].
  assert (Hpre : Forall
                   (fun f => call_function infer py_type f self
                             = (Ok PyNone, self))
                   [Bound_builtin_infer; Bound_numba_type_infer]).
  { constructor; [| constructor; [| constructor]]; simpl.
    - rewrite builtin_infer_not_generic by exact HnG; reflexivity.
    - unfold _numba_type_infer; rewrite HnT; reflexivity. }
  split.
  - intros t Hfd Ht.
    assert (E : try_infer py_type self = (Ok t, self)).
    { rewrite (try_infer_first_answer py_type self
                 [Bound_builtin_infer; Bound_numba_type_infer]
                 Bound_numpy_type_infer funcs t).
      - rewrite checked_Type by exact Ht; reflexivity.
      - exact Hl.
      - exact Hfs.
      - eapply Forall_impl; [| exact Hpre]; intros f ->; reflexivity.
      - simpl; unfold _numpy_type_infer, lift; rewrite Hc, Hfd; reflexivity.
      - apply isinstance_Type_not_None, Ht. }
    split; [exact E |].
    apply infer_of_try_infer; [exact E | apply isinstance_Type_not_None, Ht].
  - intros e Hfd.
    assert (E : try_infer py_type self = (Raise e, self)).
    { rewrite try_infer_eq, try_infer_body_checked, dict_get_lookup, Hl, Hfs.
      apply bind_Raise.
      change (Bound_builtin_infer :: Bound_numba_type_infer
                :: Bound_numpy_type_infer :: funcs)
        with ([Bound_builtin_infer; Bound_numba_type_infer]
                ++ Bound_numpy_type_infer :: funcs).
      rewrite (for_functions_skip _ _ _ _ Hpre).
      rewrite for_functions_cons_None; apply bind_Raise.
      simpl; unfold _numpy_type_infer, lift; rewrite Hc, Hfd; reflexivity. }
    split; [exact E |].
    rewrite infer_eq; unfold infer_body; apply bind_Raise; exact E.
Qed.

(** *** The container aliases *)

Lemma builtin_infer_List self_infer element_py :
  _builtin_infer self_infer (PyGenericAlias py_list [element_py]) =
  (t <- self_infer element_py ;; ret (NbListType t)).
Proof. builtin_unfold; reflexivity. Qed.

Lemma builtin_infer_Set self_infer element_py :
  _builtin_infer self_infer (PyGenericAlias py_set [element_py]) =
  (t <- self_infer element_py ;; ret (NbSet t)).
Proof. builtin_unfold; reflexivity. Qed.

Lemma builtin_infer_Dict self_infer key_py value_py :
  _builtin_infer self_infer (PyGenericAlias py_dict [key_py; value_py]) =
  (k <- self_infer key_py ;;
   v <- self_infer value_py ;;
   ret (NbDictType k v)).
Proof. builtin_unfold; reflexivity. Qed.

Lemma builtin_infer_Tuple self_infer py_type_args :
  _builtin_infer self_infer (PyGenericAlias py_tuple py_type_args) =
  (tys <- mapM self_infer py_type_args ;; ret (NbTuple tys)).
Proof. builtin_unfold; reflexivity. Qed.

(** X10: [List[T]] resolves to ListType of the resolution of [T], and
    [Set[T]] to Set of the resolution of [T]; a failure to resolve [T] is
    the failure of the whole.  ([resolves_as]: so answers the built-in
    function on every registry, and so do [try_infer] and [infer] wherever
    that function comes first and the table has no entry for the alias
    itself.) *)
Theorem X10_List_and_Set element_py :
  resolves_as (PyGenericAlias py_list [element_py])
    (t <- infer element_py ;; ret (NbListType t))
  /\ resolves_as (PyGenericAlias py_set [element_py])
       (t <- infer element_py ;; ret (NbSet t)).
Proof.
  split; apply resolves_as_intro.
  - intros self; rewrite builtin_infer_List; reflexivity.
  - intros self t self'; apply (bind_ret_Type _ NbListType); reflexivity.
  - intros self; rewrite builtin_infer_Set; reflexivity.
  - intros self t self'; apply (bind_ret_Type _ NbSet); reflexivity.
Qed.

(** X11: [Dict[K, V]] resolves to DictType of the resolutions of [K] and
    [V], the key first: when [K] does not resolve, its exception is the
    outcome, and when [K] resolves and [V] does not, that of [V]. *)
Theorem X11_Dict key_py value_py :
  resolves_as (PyGenericAlias py_dict [key_py; value_py])
    (k <- infer key_py ;; v <- infer value_py ;; ret (NbDictType k v))
  /\ (forall self e,
        fst (infer key_py self) = Raise e ->
        _builtin_infer infer (PyGenericAlias py_dict [key_py; value_py]) self
        = (Raise e, self))
  /\ (forall self k e,
        fst (infer key_py self) = Ok k ->
        fst (infer value_py self) = Raise e ->
        _builtin_infer infer (PyGenericAlias py_dict [key_py; value_py]) self
        = (Raise e, self)).
Proof.
  split; [apply resolves_as_intro |].
  - intros self; rewrite builtin_infer_Dict; reflexivity.
  - intros self t self' H.
    apply bind_inv in H as [(k & s & _ & H) | (e & _ & H)]; [| discriminate].
    apply (bind_ret_Type _ (NbDictType k)) in H; [exact H | reflexivity].
  - split.
    + intros self e Hk; rewrite builtin_infer_Dict.
      apply bind_Raise; rewrite infer_run, Hk; reflexivity.
    + intros self k e Hk Hv; rewrite builtin_infer_Dict.
      rewrite (bind_Ok _ _ self k self)
        by (rewrite infer_run, Hk; reflexivity).
      apply bind_Raise; rewrite infer_run, Hv; reflexivity.
Qed.

Lemma mapM_infer_Ok self py_type_args tys :
  Forall2 (fun a t => fst (infer a self) = Ok t) py_type_args tys ->
  mapM infer py_type_args self = (Ok tys, self).
Proof.
  induction 1 as [| a t args tys Ha _ IH]; simpl; [reflexivity |].
  rewrite (bind_Ok _ _ self t self) by (rewrite infer_run, Ha; reflexivity).
  rewrite (bind_Ok _ _ _ _ _ IH); reflexivity.
Qed.

Lemma mapM_infer_Raise self pre x post e :
  Forall (fun a => exists t, fst (infer a self) = Ok t) pre ->
  fst (infer x self) = Raise e ->
  mapM infer (pre ++ x :: post) self = (Raise e, self).
Proof.
  intros Hpre Hx; induction Hpre as [| a pre [t Ha] _ IH]; simpl.
  - apply bind_Raise; rewrite infer_run, Hx; reflexivity.
  - rewrite (bind_Ok _ _ self t self) by (rewrite infer_run, Ha; reflexivity).
    apply bind_Raise; exact IH.
Qed.

Lemma mapM_Ok_length {A B} (f : A -> M B) l self ys self' :
  mapM f l self = (Ok ys, self') -> List.length ys = List.length l.
Proof.
  revert self ys self'; induction l as [| x l IH]; simpl; intros self ys self' H.
  - inversion H; reflexivity.
  - apply bind_inv in H as [(y & s & _ & H) | (e & _ & H)]; [| discriminate].
    apply bind_inv in H as [(ys' & s' & Hys & H) | (e & _ & H)];
      [| discriminate].
    inversion H; subst; simpl; f_equal; eapply IH; exact Hys.
Qed.

(** X12: [Tuple[T1, ..., Tn]], for any [n], resolves to the tuple type of
    the resolutions of [T1], ..., [Tn] in that order, one for each argument;
    the arguments are resolved from the left, and the exception of the first
    that does not resolve is the outcome. *)
Theorem X12_Tuple py_type_args :
  resolves_as (PyGenericAlias py_tuple py_type_args)
    (tys <- mapM infer py_type_args ;; ret (NbTuple tys))
  /\ (forall self tys,
        Forall2 (fun a t => fst (infer a self) = Ok t) py_type_args tys ->
        _builtin_infer infer (PyGenericAlias py_tuple py_type_args) self
        = (Ok (NbTuple tys), self))
  /\ (forall self pre x post e,
        py_type_args = pre ++ x :: post ->
        Forall (fun a => exists t, fst (infer a self) = Ok t) pre ->
        fst (infer x self) = Raise e ->
        _builtin_infer infer (PyGenericAlias py_tuple py_type_args) self
        = (Raise e, self))
  /\ (forall self tys self',
        _builtin_infer infer (PyGenericAlias py_tuple py_type_args) self
        = (Ok (NbTuple tys), self') ->
        List.length tys = List.length py_type_args).
Proof.
  split; [apply resolves_as_intro |].
  - intros self; rewrite builtin_infer_Tuple; reflexivity.
  - intros self t self' H.
    apply bind_inv in H as [(ys & s & _ & H) | (e & _ & H)]; [| discriminate].
    inversion H; reflexivity.
  - split; [| split].
    + intros self tys H; rewrite builtin_infer_Tuple.
      rewrite (bind_Ok _ _ _ _ _ (mapM_infer_Ok _ _ _ H)); reflexivity.
    + intros self pre x post e -> Hpre Hx; rewrite builtin_infer_Tuple.
      apply bind_Raise, mapM_infer_Raise; assumption.
    + intros self tys self'; rewrite builtin_infer_Tuple; intros H.
      apply bind_inv in H as [(ys & s & Hys & H) | (e & _ & H)];
        [| discriminate].
      inversion H; subst; eapply mapM_Ok_length; exact Hys.
Qed.

(** *** Shapes without a resolution *)

(** X13: an [Annotated] of any shape other than the supported ones (no
    metadata, more than three elements, two or three elements around a type
    that is not [np.ndarray] or with a second element that is no [int])
    fails with the TypingError that lists the valid cases. *)
Theorem X13_Annotated_invalid inner_py_type annotations :
  Annotated_shape_ok inner_py_type annotations = false ->
  resolves_as (PyAnnotated inner_py_type annotations)
    (raise (TypingError Invalid_Annotated_syntax)).
Proof.
  intros H; apply resolves_as_intro; [| discriminate].
  intros self; unfold Annotated_shape_ok in H.
  builtin_unfold; simpl hasattr_metadata; cbn iota.
  destruct annotations as [| a0 [| a1 rest]]; simpl in H |- *;
    [reflexivity | discriminate |].
  rewrite H; reflexivity.
Qed.

(** X14: a list or set alias with other than one argument, and a dict alias
    with other than two, make the unpacking of the arguments raise a
    ValueError, which [try_infer] and [infer] let through. *)
Theorem X14_container_arity py_type_args :
  (List.length py_type_args <> 1%nat ->
   resolves_as (PyGenericAlias py_list py_type_args)
     (raise (unpack_error 1 (List.length py_type_args)))
   /\ resolves_as (PyGenericAlias py_set py_type_args)
        (raise (unpack_error 1 (List.length py_type_args))))
  /\ (List.length py_type_args <> 2%nat ->
      resolves_as (PyGenericAlias py_dict py_type_args)
        (raise (unpack_error 2 (List.length py_type_args)))).
Proof.
  split; [intros H; split | intros H]; apply resolves_as_intro;
    try discriminate; intros self; builtin_unfold; simpl.
  - destruct py_type_args as [| a [| b r]]; simpl in *;
      try reflexivity; congruence.
  - destruct py_type_args as [| a [| b r]]; simpl in *;
      try reflexivity; congruence.
  - destruct py_type_args as [| a [| b [| c r]]]; simpl in *;
      try reflexivity; congruence.
Qed.



(** *** Well-formed results *)

Lemma returns_at_ret {A} self (Q : A -> Prop) a :
  Q a -> returns_at self Q (ret a).
Proof. intros H; split; [reflexivity |]; intros a' E; inversion E; subst; exact H. Qed.

Lemma returns_at_raise {A} self (Q : A -> Prop) e :
  returns_at self Q (@raise A e).
Proof. split; [reflexivity | discriminate]. Qed.

Lemma returns_at_bind {A B} self (P : A -> Prop) (Q : B -> Prop)
    (m : M A) (k : A -> M B) :
  returns_at self P m -> (forall a, P a -> returns_at self Q (k a)) ->
  returns_at self Q (bind m k).
Proof.
  intros [Hs Hm] Hk; unfold returns_at, bind.
  destruct (m self) as [[a | e] s]; simpl in *; subst.
  - apply Hk, Hm; reflexivity.
  - split; [reflexivity | discriminate].
Qed.

Lemma returns_at_weaken {A} self (P Q : A -> Prop) m :
  (forall a, P a -> Q a) -> returns_at self P m -> returns_at self Q m.
Proof. intros H [Hs Hm]; split; [exact Hs | intros a E; apply H, Hm, E]. Qed.

Lemma returns_at_mapM self (f : pyobj -> M pyobj) (l : list pyobj) :
  Forall (fun x => returns_at self (fun t => well_formed t = true) (f x)) l ->
  returns_at self (fun tys => forallb well_formed tys = true) (mapM f l).
Proof.
  induction 1 as [| x l Hx _ IH]; simpl.
  - apply returns_at_ret; reflexivity.
  - eapply returns_at_bind; [exact Hx | intros y Hy].
    eapply returns_at_bind; [exact IH | intros ys Hys].
    apply returns_at_ret; simpl; rewrite Hy, Hys; reflexivity.
Qed.

Ltac returns_well_formed :=
  match goal with
  | |- returns_at _ _ (ret PyNone) => apply returns_at_ret; left; reflexivity
  | |- returns_at _ _ (raise _) => apply returns_at_raise
  | H : returns_at ?s _ (?f ?x) |- returns_at ?s _ (?f ?x) =>
      eapply returns_at_weaken; [| exact H]; intros ? ?; right; assumption
  | H : returns_at ?s _ (?f ?x)
    |- returns_at ?s _ (bind (?f ?x) _) =>
      eapply returns_at_bind;
      [exact H | let Hn := fresh in intros ? Hn; cbv beta in Hn]
  | |- returns_at _ _ (ret _) =>
      apply returns_at_ret; right; simpl;
      repeat match goal with
             | H : well_formed _ = true |- _ => rewrite H; clear H
             end;
      try reflexivity
  end.

Lemma returns_at_builtin_infer self self_infer py_type :
  Forall (fun x => returns_at self (fun t => well_formed t = true)
                     (self_infer x))
    (parts py_type) ->
  returns_at self None_or_well_formed (_builtin_infer self_infer py_type).
Proof.
  intros H; unfold _builtin_infer, None_or_well_formed.
  repeat match goal with
         | |- returns_at _ _ (if ?c then _ else _) => destruct c eqn:?
         | |- returns_at _ _ (match ?x with _ => _ end) =>
             destruct x; simpl parts in *; split_Forall
         | |- _ => returns_well_formed
         end.
  - (* the Array of an Annotated *)
    match goal with
    | E : _ && isinstance_int _ = true |- _ =>
        apply andb_prop in E as [_ ->]
    end.
    reflexivity.
  - (* the tuple *)
    apply (returns_at_bind _ (fun tys => forallb well_formed tys = true));
      [apply returns_at_mapM; assumption |].
    intros tys Htys; apply returns_at_ret; right; exact Htys.
Qed.

Lemma None_or_well_formed_if_Type r :
  None_or_well_formed r -> well_formed_if_Type r.
Proof. intros [-> | H] Ht; [discriminate | exact H]. Qed.

Lemma returns_at_lift self (f : pyobj -> res pyobj) x :
  answers_well_formed f -> returns_at self well_formed_if_Type (lift (f x)).
Proof.
  intros H; split; [reflexivity |]; simpl; intros v E; exact (H x v E).
Qed.

Lemma returns_at_call_function self self_infer py_type func :
  answers_well_formed numpy_support_from_dtype ->
  registry_well_formed self ->
  In func (functions self) ->
  well_formed_if_Type py_type ->
  Forall (fun x => returns_at self (fun t => well_formed t = true)
                     (self_infer x))
    (parts py_type) ->
  returns_at self well_formed_if_Type (call_function self_infer py_type func).
Proof.
  intros Hnp [_ Hreg] Hin Hty H; destruct func; simpl.
  - eapply returns_at_weaken; [apply None_or_well_formed_if_Type |].
    apply returns_at_builtin_infer; exact H.
  - unfold _numba_type_infer; destruct (isinstance_Type py_type);
      apply returns_at_ret; [exact Hty | discriminate].
  - unfold _numpy_type_infer.
    destruct (inspect_isclass py_type && issubclass py_type np_generic_name);
      [apply returns_at_lift, Hnp | apply returns_at_ret; discriminate].
  - apply returns_at_lift, Hreg, Hin.
Qed.

Lemma returns_at_for_functions self call funcs :
  Forall (fun func => returns_at self well_formed_if_Type (call func)) funcs ->
  forall result,
    well_formed_if_Type result ->
    returns_at self well_formed_if_Type (for_functions call funcs result).
Proof.
  induction 1 as [| func funcs Hf _ IH]; intros result Hr; simpl.
  - apply returns_at_ret, Hr.
  - destruct (is_not_None result); [apply returns_at_ret, Hr |].
    eapply returns_at_bind; [exact Hf | intros r; apply IH].
Qed.

Lemma dict_get_well_formed d key :
  Forall (fun item => well_formed (snd item) = true) d ->
  well_formed_if_Type (dict_get d key PyNone).
Proof.
  unfold dict_get; induction 1 as [| [k v] d Hk _ IH]; simpl;
    [discriminate |].
  destruct (py_eq k key); [intros _; exact Hk | exact IH].
Qed.

Lemma returns_at_try_infer_body self self_infer py_type :
  answers_well_formed numpy_support_from_dtype ->
  registry_well_formed self ->
  well_formed_if_Type py_type ->
  Forall (fun x => returns_at self (fun t => well_formed t = true)
                     (self_infer x))
    (parts py_type) ->
  returns_at self (fun r => is_not_None r = true -> well_formed r = true)
    (try_infer_body self_infer py_type).
Proof.
  intros Hnp Hreg Hty H.
  unfold returns_at; rewrite try_infer_body_checked.
  eapply returns_at_bind.
  - apply returns_at_for_functions.
    + apply Forall_forall; intros func Hin.
      apply returns_at_call_function; assumption.
    + apply dict_get_well_formed, Hreg.
  - intros r Hr; split.
    + unfold checked;
        destruct (is_not_None r && negb (isinstance_Type r)); reflexivity.
    + intros a E Ha.
      pose proof (surjective_pairing (checked r self)) as Ep.
      rewrite E in Ep; apply checked_Ok in Ep as (-> & _ & Ht).
      apply Hr, Ht, Ha.
Qed.

Lemma returns_at_infer_body self self_try_infer py_type :
  returns_at self (fun r => is_not_None r = true -> well_formed r = true)
    (self_try_infer py_type) ->
  returns_at self (fun t => well_formed t = true)
    (infer_body self_try_infer py_type).
Proof.
  intros H; unfold infer_body.
  eapply returns_at_bind; [exact H | intros r Hr; cbv beta in Hr].
  destruct (is_None r) eqn:E; [apply returns_at_raise |].
  apply returns_at_ret, Hr; unfold is_not_None; rewrite E; reflexivity.
Qed.

Lemma returns_at_try_infer self py_type :
  answers_well_formed numpy_support_from_dtype ->
  registry_well_formed self ->
  numba_types_inside_ok py_type = true ->
  returns_at self (fun r => is_not_None r = true -> well_formed r = true)
    (try_infer py_type).
Proof.
  intros Hnp Hreg.
  induction py_type using pyobj_nested_ind; intros Hok;
    rewrite try_infer_eq; apply returns_at_try_infer_body;
    try assumption; simpl parts; try apply Forall_nil;
    try (intros Ht; simpl in Hok, Ht |- *; try discriminate; exact Hok);
    simpl in Hok; rewrite forallb_forall in Hok; rewrite Forall_forall in *;
    intros x Hx; rewrite infer_eq; apply returns_at_infer_body; auto.
Qed.

(** X16: the types [infer] returns are numba types all the way down (the
    parts of an Optional, a list, a dict, a set, a tuple and an Array are
    numba types, the [ndim] of an Array is an [int]), provided what goes in
    is: the values of the table, the answers of the registered functions
    and of the scalar mapping, and the numba types written inside the python
    type. *)
Theorem X16_results_well_formed self py_type t :
  answers_well_formed numpy_support_from_dtype ->
  registry_well_formed self ->
  numba_types_inside_ok py_type = true ->
  fst (infer py_type self) = Ok t ->
  well_formed t = true.
Proof.
  intros Hnp Hreg Hok.
  apply (returns_at_infer_body self try_infer py_type).
  apply returns_at_try_infer; assumption.
Qed.

(** *** Registering a class and resolving containers of it *)

(** X17: once [register(py_type, numba_type)] has put a numba type in the
    table, [List[py_type]] resolves to ListType of it and
    [Optional[py_type]] (the union with [NoneType]) to Optional of it, as
    long as the aliases themselves are no keys of the table. *)
Theorem X17_registered_class_in_containers self py_type numba_type :
  isinstance_Type numba_type = true ->
  builtin_first self ->
  (dict_lookup (lookup (with_entry self py_type numba_type))
     (PyGenericAlias py_list [py_type]) = None ->
   infer (PyGenericAlias py_list [py_type])
     (with_entry self py_type numba_type) =
   (Ok (NbListType numba_type), with_entry self py_type numba_type))
  /\ (py_is py_type py_NoneType = false ->
      dict_lookup (lookup (with_entry self py_type numba_type))
        (PyGenericAlias pt_Union [py_type; py_NoneType]) = None ->
      infer (PyGenericAlias pt_Union [py_type; py_NoneType])
        (with_entry self py_type numba_type) =
      (Ok (NbOptional numba_type), with_entry self py_type numba_type)).
Proof.
  intros Ht Hb.
  assert (Hb' : builtin_first (with_entry self py_type numba_type))
    by (rewrite with_entry_eq by exact Ht; exact Hb).
  assert (Ei : infer py_type (with_entry self py_type numba_type) =
               (Ok numba_type, with_entry self py_type numba_type)).
  { apply infer_of_try_infer; [| apply isinstance_Type_not_None, Ht].
    apply try_infer_lookup_hit; [| exact Ht].
    rewrite with_entry_eq by exact Ht; apply dict_lookup_setitem_same. }
  split.
  - intros Hl.
    assert (R : resolves_as (PyGenericAlias py_list [py_type])
                  (t <- infer py_type ;; ret (NbListType t))).
    { apply resolves_as_intro.
      - intros s; rewrite builtin_infer_List; reflexivity.
      - intros s t s'; apply (bind_ret_Type _ NbListType); reflexivity. }
    rewrite (proj2 (proj2 R _ Hb' Hl)).
    rewrite (bind_Ok _ _ _ _ _ Ei); reflexivity.
  - intros Hn Hl.
    assert (R : resolves_as (PyGenericAlias pt_Union [py_type; py_NoneType])
                  (t <- infer py_type ;; ret (NbOptional t))).
    { apply resolves_as_intro.
      - intros s; rewrite builtin_infer_Union_2; reflexivity.
      - intros s t s'; apply (bind_ret_Type _ NbOptional); reflexivity. }
    rewrite (proj2 (proj2 R _ Hb' Hl)).
    rewrite (bind_Ok _ _ _ _ _ Ei); reflexivity.
Qed.


End asnumbatype.

(** ** On a concrete interpreter and registry *)

Lemma PYVERSION_example_supported : version_ge PYVERSION_example (3, 7) = true.
Proof. reflexivity. Qed.

Lemma C1_builtin_functions_in_order_witness :
  dict_lookup (lookup __init__) class_Foo = None
  /\ try_infer PYVERSION_example from_dtype_example class_Foo __init__ =
     (Ok PyNone, __init__).
Proof.
  split; [reflexivity |].
  rewrite (proj2 (C1_builtin_functions_in_order
                    PYVERSION_example from_dtype_example) class_Foo);
    reflexivity.
Defined.

(** The functions are not in the order passthrough, native scalar kind,
    generic/metadata-shape. *)
Lemma C1_counterexample :
  functions __init__ <>
  [Bound_numba_type_infer; Bound_numpy_type_infer; Bound_builtin_infer].
Proof. discriminate. Qed.

Lemma C2_Annotated_array_witness :
  infer PYVERSION_example from_dtype_example
    (PyAnnotated np_ndarray [py_float; PyInt 3; PyStr "F"]) __init__ =
  (Ok (NbArray (NbScalar "float64") (PyInt 3) (PyStr "F")), __init__).
Proof.
  rewrite (proj2 (proj2 (C2_Annotated_array
                           PYVERSION_example from_dtype_example
                           PYVERSION_example_supported
                           np_ndarray py_float (PyInt 3) [PyStr "F"]
                           (le_n 1) eq_refl eq_refl)
                    __init__ (ex_intro _ _ eq_refl) eq_refl)).
  reflexivity.
Defined.

(** [Annotated[np.ndarray, 2, "C"]]: two metadata elements, the array
    sentinel inside, the first metadata element an integer; the outcome is
    the TypingError for an invalid Annotated, not an Array. *)
Lemma C2_counterexample :
  List.length [PyInt 2; PyStr "C"] = 2%nat
  /\ py_is np_ndarray np_ndarray = true
  /\ isinstance_int (PyInt 2) = true
  /\ infer PYVERSION_example from_dtype_example
       (PyAnnotated np_ndarray [PyInt 2; PyStr "C"]) __init__ =
     (Raise (TypingError Invalid_Annotated_syntax), __init__)
  /\ _builtin_infer PYVERSION_example
       (infer PYVERSION_example from_dtype_example)
       (PyAnnotated np_ndarray [PyInt 2; PyStr "C"]) __init__ =
     (Raise (TypingError Invalid_Annotated_syntax), __init__).
Proof. repeat split. Qed.

Lemma C3_Annotated_ndarray_ndim_2_witness :
  infer PYVERSION_example from_dtype_example
    (PyAnnotated np_ndarray [py_int; PyInt 2]) __init__ =
  (Ok (NbArray (NbScalar "int64") (PyInt 2) (PyStr "A")), __init__)
  /\ infer PYVERSION_example from_dtype_example
       (PyAnnotated np_ndarray [py_int; PyInt 2; PyStr "C"]) __init__ =
     (Ok (NbArray (NbScalar "int64") (PyInt 2) (PyStr "C")), __init__).
Proof.
  pose proof (C3_Annotated_ndarray_ndim_2
                PYVERSION_example from_dtype_example
                PYVERSION_example_supported py_int) as [[_ HA] [_ HC]].
  split.
  - rewrite (proj2 (HA __init__ (ex_intro _ _ eq_refl) eq_refl)); reflexivity.
  - rewrite (proj2 (HC __init__ (ex_intro _ _ eq_refl) eq_refl)); reflexivity.
Defined.

Lemma lookup_holds_types_init : lookup_holds_types __init__.
Proof. unfold lookup_holds_types; simpl; repeat constructor. Qed.

Lemma C4_lookup_entry_wins_witness :
  fst (try_infer PYVERSION_example from_dtype_example py_int
         (snd (register (Func (fun _ => Ok (NbScalar "float64"))) PyNone
                 __init__)))
  = Ok (NbScalar "int64").
Proof.
  apply (C4_lookup_entry_wins PYVERSION_example from_dtype_example
           py_int (NbScalar "int64") __init__ lookup_holds_types_init eq_refl).
Defined.

Lemma C5_Union_witness :
  infer PYVERSION_example from_dtype_example
    (PyGenericAlias pt_Union [py_int; py_NoneType]) __init__ =
  (Ok (NbOptional (NbScalar "int64")), __init__)
  /\ infer PYVERSION_example from_dtype_example
       (PyGenericAlias pt_Union [py_int; py_str]) __init__ =
     (Raise (TypingError (Cannot_type_Union_that_is_not_an_Optional py_str)),
      __init__)
  /\ infer PYVERSION_example from_dtype_example
       (PyGenericAlias pt_Union [py_int; py_str; py_NoneType]) __init__ =
     (Raise (TypingError Cannot_type_Union_of_more_than_two_types), __init__).
Proof.
  split; [| split].
  - destruct (C5_Union PYVERSION_example from_dtype_example
                PYVERSION_example_supported [py_int; py_NoneType])
      as [_ H].
    destruct (H py_int py_NoneType eq_refl) as [H1 _].
    rewrite (proj2 (proj2 (H1 eq_refl eq_refl) __init__
                      (ex_intro _ _ eq_refl) eq_refl)).
    reflexivity.
  - destruct (C5_Union PYVERSION_example from_dtype_example
                PYVERSION_example_supported [py_int; py_str])
      as [_ H].
    destruct (H py_int py_str eq_refl) as [_ [_ H3]].
    rewrite (proj2 (proj2 (H3 eq_refl eq_refl) __init__
                      (ex_intro _ _ eq_refl) eq_refl)).
    reflexivity.
  - destruct (C5_Union PYVERSION_example from_dtype_example
                PYVERSION_example_supported [py_int; py_str; py_NoneType])
      as [H _].
    assert (Hlen : List.length [py_int; py_str; py_NoneType] <> 2%nat)
      by (simpl; lia).
    rewrite (proj2 (proj2 (H Hlen) __init__ (ex_intro _ _ eq_refl) eq_refl)).
    reflexivity.
Defined.

Lemma C6_infer_after_try_infer_witness :
  infer PYVERSION_example from_dtype_example class_Foo __init__ =
  (Raise (TypingError (Cannot_infer_numba_type_of_python_type class_Foo)),
   __init__)
  /\ infer PYVERSION_example from_dtype_example py_str __init__ =
     (Ok (NbScalar "unicode_type"), __init__).
Proof.
  split.
  - apply (proj1 (C6_infer_after_try_infer
                    PYVERSION_example from_dtype_example class_Foo __init__));
      [reflexivity | repeat constructor].
  - apply (proj2 (C6_infer_after_try_infer
                    PYVERSION_example from_dtype_example py_str __init__));
      reflexivity.
Defined.

Lemma C7_result_that_is_no_numba_type_witness :
  try_infer PYVERSION_example from_dtype_example class_Foo
    (snd (register (Func (fun _ => Ok (PyInt 1))) PyNone __init__)) =
  (Raise (TypingError (as_numba_type_should_return_a_numba_type (PyInt 1))),
   snd (register (Func (fun _ => Ok (PyInt 1))) PyNone __init__)).
Proof.
  apply (proj2 (C7_result_that_is_no_numba_type
                  PYVERSION_example from_dtype_example class_Foo
                  (snd (register (Func (fun _ => Ok (PyInt 1))) PyNone
                          __init__)))
           [Bound_builtin_infer; Bound_numba_type_infer; Bound_numpy_type_infer]
           (Registered (fun _ => Ok (PyInt 1))) []);
    try reflexivity; repeat constructor.
Defined.





(** [Annotated[int, []]], whose metadata holds a list: the table lookup
    raises a TypeError, which is no TypingError either. *)
Example unhashable_Annotated_raises_TypeError :
  fst (infer_object PYVERSION_example from_dtype_example
         (Unhashable "list") __init__) = Raise (OtherError "TypeError")
  /\ is_TypingError (OtherError "TypeError") = false.
Proof. split; reflexivity. Qed.

Lemma C9_Annotated_single_metadata_witness :
  infer PYVERSION_example from_dtype_example
    (PyAnnotated py_int [py_float]) __init__ =
  infer PYVERSION_example from_dtype_example py_float __init__.
Proof.
  apply (proj2 (C9_Annotated_single_metadata
                  PYVERSION_example from_dtype_example
                  PYVERSION_example_supported py_int py_float)
           __init__ (ex_intro _ _ eq_refl) eq_refl).
Defined.

(** ** The registry at work *)

(** [List[Dict[str, int]]] *)
Example infer_List_Dict_str_int :
  infer PYVERSION_example from_dtype_example
    (PyGenericAlias py_list [PyGenericAlias py_dict [py_str; py_int]])
    __init__ =
  (Ok (NbListType (NbDictType (NbScalar "unicode_type") (NbScalar "int64"))),
   __init__).
Proof. reflexivity. Qed.

(** [Tuple[int, float, np.int32]], through the table and the scalar
    mapping *)
Example infer_Tuple :
  infer PYVERSION_example from_dtype_example
    (PyGenericAlias py_tuple
       [py_int; py_float; PyClass "int32" ["numpy.generic"; "object"]])
    __init__ =
  (Ok (NbTuple [NbScalar "int64"; NbScalar "float64"; NbScalar "int32"]),
   __init__).
Proof. reflexivity. Qed.

(** A numba type is its own resolution. *)
Example infer_numba_type :
  infer PYVERSION_example from_dtype_example
    (NbOptional (NbScalar "float32")) __init__ =
  (Ok (NbOptional (NbScalar "float32")), __init__).
Proof. reflexivity. Qed.

(** [register] does write the registry: the pair form puts or replaces a
    table entry, the decorator form appends to the list of functions. *)
Example register_pair_writes_lookup :
  dict_lookup
    (lookup (snd (register (Py_type class_Foo) (NbScalar "foo") __init__)))
    class_Foo = Some (NbScalar "foo")
  /\ dict_lookup
       (lookup (snd (register (Py_type py_int) (NbScalar "int32") __init__)))
       py_int = Some (NbScalar "int32")
  /\ fst (register (Py_type class_Foo) (PyInt 1) __init__) =
     Raise AssertionError.
Proof. repeat split. Qed.

Example register_function_appends (func : pyobj -> res pyobj) :
  functions (snd (register (Func func) PyNone __init__)) =
  [Bound_builtin_infer; Bound_numba_type_infer; Bound_numpy_type_infer;
   Registered func].
Proof. reflexivity. Qed.

(** ** The further properties on a concrete interpreter and registry *)

Lemma reachable_with_entry self py_type numba_type :
  reachable self -> reachable (with_entry self py_type numba_type).
Proof.
  intros H; eapply reachable_register; [exact H | apply surjective_pairing].
Qed.

Lemma reachable_with_function self func :
  reachable self -> reachable (with_function self func).
Proof.
  intros H; eapply reachable_register; [exact H | apply surjective_pairing].
Qed.

Lemma X1_register_then_infer_witness :
  infer PYVERSION_example from_dtype_example py_int
    (with_entry __init__ py_int (NbScalar "int32")) =
  (Ok (NbScalar "int32"), with_entry __init__ py_int (NbScalar "int32")).
Proof.
  apply (X1_register_then_infer PYVERSION_example from_dtype_example
           __init__ py_int (NbScalar "int32") py_int eq_refl eq_refl).
Defined.

Lemma X2_register_leaves_other_keys_witness :
  try_infer PYVERSION_example from_dtype_example py_str
    (with_entry __init__ py_int (NbScalar "int32")) =
  (Ok (NbScalar "unicode_type"), with_entry __init__ py_int (NbScalar "int32")).
Proof.
  apply (X2_register_leaves_other_keys PYVERSION_example from_dtype_example
           __init__ py_int (NbScalar "int32") py_str eq_refl);
    [exact lookup_holds_types_init | reflexivity].
Defined.

Lemma X4_reachable_invariants_witness :
  builtins_first
    (with_function (with_entry __init__ class_Foo (NbScalar "foo"))
       (fun _ => Ok PyNone))
  /\ lookup_holds_types
       (with_function (with_entry __init__ class_Foo (NbScalar "foo"))
          (fun _ => Ok PyNone)).
Proof.
  pose proof (X4_reachable_invariants
                (with_function (with_entry __init__ class_Foo (NbScalar "foo"))
                   (fun _ => Ok PyNone))
                (reachable_with_function _ _
                   (reachable_with_entry _ _ _ reachable_init)))
    as (H1 & H2 & _).
  split; assumption.
Defined.

Lemma X5_seeded_classes_resolve_witness :
  exists t,
    infer PYVERSION_example from_dtype_example py_bool
      (with_entry (with_entry __init__ class_Foo (NbScalar "foo"))
         py_bool (NbScalar "uint8")) =
    (Ok t,
     with_entry (with_entry __init__ class_Foo (NbScalar "foo"))
       py_bool (NbScalar "uint8"))
    /\ isinstance_Type t = true.
Proof.
  apply (X5_seeded_classes_resolve PYVERSION_example from_dtype_example).
  - apply reachable_with_entry, reachable_with_entry, reachable_init.
  - simpl; tauto.
Defined.

Lemma builtins_first_init : builtins_first __init__.
Proof. exists []; reflexivity. Qed.

Lemma X8_numba_type_passthrough_witness :
  infer PYVERSION_example from_dtype_example
    (NbArray (NbScalar "float32") (PyInt 1) (PyStr "C")) __init__ =
  (Ok (NbArray (NbScalar "float32") (PyInt 1) (PyStr "C")), __init__).
Proof.
  apply (proj1 (X8_numba_type_passthrough
                  PYVERSION_example from_dtype_example
                  PYVERSION_example_supported __init__ builtins_first_init));
    reflexivity.
Defined.

Lemma X9_numpy_scalar_class_witness :
  infer PYVERSION_example from_dtype_example
    (PyClass "int32" ["numpy.generic"; "object"]) __init__ =
  (Ok (NbScalar "int32"), __init__).
Proof.
  apply (proj1 (X9_numpy_scalar_class
                  PYVERSION_example from_dtype_example
                  PYVERSION_example_supported __init__
                  (PyClass "int32" ["numpy.generic"; "object"])
                  builtins_first_init eq_refl eq_refl));
    reflexivity.
Defined.

Lemma X10_List_and_Set_witness :
  infer PYVERSION_example from_dtype_example
    (PyGenericAlias py_set [py_str]) __init__ =
  (Ok (NbSet (NbScalar "unicode_type")), __init__).
Proof.
  rewrite (proj2 (proj2 (proj2 (X10_List_and_Set
                                  PYVERSION_example from_dtype_example
                                  PYVERSION_example_supported py_str))
                    __init__ (ex_intro _ _ eq_refl) eq_refl)).
  reflexivity.
Defined.

Lemma X11_Dict_witness :
  _builtin_infer PYVERSION_example
    (infer PYVERSION_example from_dtype_example)
    (PyGenericAlias py_dict [class_Foo; py_int]) __init__ =
  (Raise (TypingError (Cannot_infer_numba_type_of_python_type class_Foo)),
   __init__).
Proof.
  apply (proj1 (proj2 (X11_Dict PYVERSION_example from_dtype_example
                         PYVERSION_example_supported class_Foo py_int))).
  reflexivity.
Defined.

Lemma X12_Tuple_witness :
  _builtin_infer PYVERSION_example
    (infer PYVERSION_example from_dtype_example)
    (PyGenericAlias py_tuple [py_int; py_float]) __init__ =
  (Ok (NbTuple [NbScalar "int64"; NbScalar "float64"]), __init__).
Proof.
  apply (proj1 (proj2 (X12_Tuple PYVERSION_example from_dtype_example
                         PYVERSION_example_supported [py_int; py_float]))).
  repeat constructor.
Defined.

Lemma X13_Annotated_invalid_witness :
  infer PYVERSION_example from_dtype_example
    (PyAnnotated py_int [py_float; PyInt 2]) __init__ =
  (Raise (TypingError Invalid_Annotated_syntax), __init__).
Proof.
  apply (proj2 (proj2 (X13_Annotated_invalid
                         PYVERSION_example from_dtype_example
                         PYVERSION_example_supported
                         py_int [py_float; PyInt 2] eq_refl)
                  __init__ (ex_intro _ _ eq_refl) eq_refl)).
Defined.

Lemma X14_container_arity_witness :
  infer PYVERSION_example from_dtype_example
    (PyGenericAlias py_dict [py_int]) __init__ =
  (Raise (ValueError "not enough values to unpack"), __init__).
Proof.
  assert (H : List.length [py_int] <> 2%nat) by (simpl; lia).
  apply (proj2 (proj2 (proj2 (X14_container_arity
                                PYVERSION_example from_dtype_example
                                PYVERSION_example_supported [py_int]) H)
                  __init__ (ex_intro _ _ eq_refl) eq_refl)).
Defined.


Lemma registry_well_formed_init : registry_well_formed __init__.
Proof.
  split; [simpl; repeat constructor |].
  intros f [H | [H | [H | []]]]; discriminate.
Qed.

Lemma from_dtype_example_well_formed : answers_well_formed from_dtype_example.
Proof. intros [] v H; inversion H; reflexivity. Qed.

Lemma X16_results_well_formed_witness :
  fst (infer PYVERSION_example from_dtype_example
         (PyAnnotated np_ndarray
            [PyGenericAlias pt_Union [py_float; py_NoneType]; PyInt 2])
         __init__) =
  Ok (NbArray (NbOptional (NbScalar "float64")) (PyInt 2) (PyStr "A"))
  /\ well_formed
       (NbArray (NbOptional (NbScalar "float64")) (PyInt 2) (PyStr "A")) = true.
Proof.
  split; [reflexivity |].
  apply (X16_results_well_formed
           PYVERSION_example from_dtype_example __init__
           (PyAnnotated np_ndarray
              [PyGenericAlias pt_Union [py_float; py_NoneType]; PyInt 2])
           _ from_dtype_example_well_formed registry_well_formed_init eq_refl).
  reflexivity.
Defined.

Lemma X17_registered_class_in_containers_witness :
  infer PYVERSION_example from_dtype_example
    (PyGenericAlias py_list [class_Foo])
    (with_entry __init__ class_Foo (NbScalar "foo")) =
  (Ok (NbListType (NbScalar "foo")),
   with_entry __init__ class_Foo (NbScalar "foo")).
Proof.
  apply (proj1 (X17_registered_class_in_containers
                  PYVERSION_example from_dtype_example
                  PYVERSION_example_supported
                  __init__ class_Foo (NbScalar "foo") eq_refl
                  (ex_intro _ _ eq_refl))).
  reflexivity.
Defined.
